(** * Distro-Analyzer: the deterministic scoring engine (package [score])

    A shallow embedding of [score/engine.go], of the [Distro] and [Trend]
    declarations, of the shipped catalog [Top50Distros] and of the [profile]
    domain types, followed by the properties of the engine.  The pure parts
    of the packages around the engine are embedded as well: the explainer
    ([explain]), the prompt and signal handling of the analyzer ([analyze])
    and the pipeline of the HTTP handler ([httpapi]).

    Conventions of the embedding.
    - Go's [int] is the 64-bit two's complement integer: values are [Z] and
      every [+], [-], [++], [+=], [-=] of the source is followed by
      [Int64.wrap].
    - Go's [string] is a byte sequence: [String.string]; [==] is
      [String.eqb]; [strings.Contains] is the byte-wise substring test.
      [strings.ToLower] performs Unicode case mapping and is taken as a
      parameter of the engine ([ToLower]); [asciiToLower] is the instance
      that agrees with it on ASCII input.
    - Go's [float64] is idealised by the real numbers [R]: [math.Sqrt],
      [math.Log] and [math.Pow(_, 2)] are [sqrt], [ln] and [_ ^ 2], and
      comparisons are decided by [Rlt_dec].  Rounding errors of the
      IEEE-754 operations are outside the model.
    - [log.Printf] calls write to the process log only and are dropped. *)

From Stdlib Require Import ZArith List String Ascii Bool Lia Permutation.
From Stdlib Require Import DecimalString.
From Stdlib Require Import Reals Lra.
Import ListNotations.

Local Open Scope string_scope.
Local Open Scope Z_scope.

(** ** Go's 64-bit [int] *)

Module Int64.

Definition modulus : Z := 2 ^ 64.
Definition min_int : Z := - 2 ^ 63.
Definition max_int : Z := 2 ^ 63 - 1.

(** Two's complement reduction of a mathematical integer. *)
Definition wrap (z : Z) : Z := (z + 2 ^ 63) mod modulus - 2 ^ 63.

Definition add (a b : Z) : Z := wrap (a + b).
Definition sub (a b : Z) : Z := wrap (a - b).
Definition neg (a : Z) : Z := wrap (- a).

Definition in_range (z : Z) : Prop := min_int <= z <= max_int.

End Int64.

(** ** Go's [strings] package *)

Module strings.

(** [strings.Contains(s, substr)]: [substr] occurs in [s]. *)
Fixpoint Contains (s substr : string) : bool :=
  if String.prefix substr s then true
  else match s with
       | EmptyString => false
       | String _ s' => Contains s' substr
       end.

Definition asciiLower (c : ascii) : ascii :=
  let n := nat_of_ascii c in
  if (Nat.leb 65 n && Nat.leb n 90)%bool then ascii_of_nat (n + 32) else c.

(** [strings.ToLower] restricted to ASCII input. *)
Fixpoint asciiToLower (s : string) : string :=
  match s with
  | EmptyString => EmptyString
  | String c s' => String (asciiLower c) (asciiToLower s')
  end.

End strings.

(** ** Package [profile] *)

Module profile.

(** [type ExperienceLevel string] *)
Definition ExperienceLevel := string.
Definition ExpJunior : ExperienceLevel := "junior".
Definition ExpMid : ExperienceLevel := "mid".
Definition ExpSenior : ExperienceLevel := "senior".

(** [type FitCategory string] *)
Definition FitCategory := string.
Definition FitStrong : FitCategory := "strong_fit".
Definition FitPotential : FitCategory := "potential".
Definition FitNone : FitCategory := "not_fit".

(** [type Sentiment string] *)
Definition Sentiment := string.
Definition SentimentPos : Sentiment := "positive".
Definition SentimentNeu : Sentiment := "neutral".
Definition SentimentNeg : Sentiment := "negative".

Record Signals : Type := mkSignals {
  Topics : list string;
  Sentiment_ : Sentiment;
  ExperienceLevel_ : ExperienceLevel;
  Keywords : list string;
  TechStack : list string
}.

Record Result : Type := mkResult {
  Score : Z;
  Category : FitCategory;
  Explanation : string;
  Confidence : R
}.

End profile.

(** ** Package [score]: data *)

Module score.

(** [type Trend int] *)
Definition Trend := Z.
Definition TrendDown : Trend := -1.
Definition TrendStable : Trend := 0.
Definition TrendUp : Trend := 1.

Record Distro : Type := mkDistro {
  ID : string;
  Name : string;
  Rolling : Z;
  Easy : Z;
  DIY : Z;
  Performance : Z;
  DevFocus : Z;
  Popularity : Z;
  Trend_ : Trend
}.

Record UserDimensions : Type := mkDims {
  RollingScore : Z;
  DIYScore : Z;
  PerformanceScore : Z;
  DevScore : Z
}.

Record MatchResult : Type := mkMatch {
  distro : Distro;
  matchScore : R
}.

Record Engine : Type := mkEngine {
  distros : list Distro
}.

Record ScoreOutput : Type := mkScoreOutput {
  Result_ : profile.Result;
  BestDistroID : string;
  BestDistroName : string
}.

Definition NewEngine (distros : list Distro) : Engine :=
  {| distros := distros |}.

(** The zero value of [Distro] and of [MatchResult] ([var best MatchResult]). *)
Definition zeroDistro : Distro :=
  {| ID := ""; Name := ""; Rolling := 0; Easy := 0; DIY := 0;
     Performance := 0; DevFocus := 0; Popularity := 0; Trend_ := 0 |}.

Definition zeroMatch : MatchResult :=
  {| distro := zeroDistro; matchScore := 0%R |}.

(** *** Helpers *)

Definition clamp (value min max : Z) : Z :=
  if value <? min then min
  else if value >? max then max
  else value.

Definition abs (x : Z) : Z :=
  if x <? 0 then Int64.neg x else x.

(** The inner loop shared by the four extractors:
    [for _, p := range table { if cond(p) { score += delta } }]
    ([score -= 2] is [score += -2]; [scriptCount++] is [+= 1]). *)
Definition scanTable (cond : string -> bool) (delta : Z)
           (table : list string) (score : Z) : Z :=
  fold_left (fun score p => if cond p then Int64.add score delta else score)
            table score.

(** *** calculateRollingPreference *)

Definition bleedingTech : list string := ["rust"; "mojo"; "zig"; "deno"; "bun"].
Definition stableKeywords : list string :=
  ["production"; "enterprise"; "stable"; "lts"].

Definition calculateRollingPreference (signals : profile.Signals) : Z :=
  let score := 5 in
  let score :=
    fold_left (fun score tech => scanTable (String.eqb tech) 2 bleedingTech score)
              (profile.TechStack signals) score in
  let score :=
    if String.eqb (profile.ExperienceLevel_ signals) profile.ExpSenior
    then Int64.add score 1 else score in
  let score :=
    fold_left (fun score kw => scanTable (String.eqb kw) (-2) stableKeywords score)
              (profile.Keywords signals) score in
  clamp score 0 10.

(** *** calculateDIYPreference *)

Definition diyKeywords : list string :=
  [ "dotfiles"; "rice"; "customization"; "tiling"; "window manager";
    "kernel"; "arch"; "gentoo"; "nixos"; "low-level"; "assembly";
    "hyprland"; "sway"; "i3"; "awesome"; "dwm"; "qtile"; "bspwm";
    "wayland"; "x11"; "compositor"; "eww"; "polybar"; "waybar"; "rofi"; "wofi";
    "minimal"; "minimalism"; "void"; "artix"; "crux"; "alpine"; "kiss";
    "lfs"; "linux from scratch"; "custom kernel"; "musl"; "glibc hardening";
    "immutable"; "atomic"; "silverblue"; "kinoite"; "bazzite"; "ublue";
    "home-manager"; "flakes"; "nix"; "guix";
    "ricing"; "unixporn"; "gruvbox"; "catppuccin"; "tokyonight" ].

Definition easyKeywords : list string :=
  ["beginner"; "simple"; "easy"; "user-friendly"].

Definition scriptingLangs : list string := ["bash"; "lua"; "python"].

(** The keyword loop of [calculateDIYPreference], from [score := 5]. *)
Definition diyKeywordScore (keywords : list string) : Z :=
  fold_left (fun score kw =>
               let score := scanTable (String.eqb kw) 3 diyKeywords score in
               scanTable (String.eqb kw) (-2) easyKeywords score)
            keywords 5.

(** The tech-stack loop of [calculateDIYPreference], from [scriptCount := 0]. *)
Definition scriptCount (techStack : list string) : Z :=
  fold_left (fun scriptCount tech =>
               scanTable (String.eqb tech) 1 scriptingLangs scriptCount)
            techStack 0.

Definition calculateDIYPreference (signals : profile.Signals) : Z :=
  let score := diyKeywordScore (profile.Keywords signals) in
  let scriptCount := scriptCount (profile.TechStack signals) in
  let score := if scriptCount >=? 2 then Int64.add score 2 else score in
  clamp score 0 10.

(** *** calculatePerformanceNeed *)

Definition perfKeywords : list string :=
  ["gaming"; "performance"; "gpu"; "vulkan"; "shader"; "godot"; "unreal"].

Definition perfTech : list string :=
  [ "c"; "c++"; "rust"; "vulkan"; "opengl"; "gpu";
    "cuda"; "rocm"; "opencl"; "metal";
    "directx"; "dx12"; "webgpu";
    "assembly"; "asm"; "x86"; "arm"; "riscv";
    "hpc"; "mpi"; "openmp"; "simd"; "avx"; "avx512";
    "zig"; "c++20"; "c++23"; "cpp";
    "ispc"; "halide";
    "game dev"; "godot"; "unreal"; "unity" ].

Definition calculatePerformanceNeed (signals : profile.Signals) : Z :=
  let score := 3 in
  let score :=
    fold_left (fun score kw => scanTable (String.eqb kw) 2 perfKeywords score)
              (profile.Keywords signals) score in
  let score :=
    fold_left (fun score tech => scanTable (String.eqb tech) 1 perfTech score)
              (profile.TechStack signals) score in
  clamp score 0 10.

(** *** calculateDevFocus *)

Definition devTech : list string :=
  [ "c"; "c++"; "go"; "rust"; "python"; "ruby"; "javascript"; "typescript";
    "java"; "kotlin"; "swift"; "php"; "perl"; "shell"; "bash"; "lua";
    "docker"; "kubernetes"; "terraform"; "ansible"; "vagrant"; "chef"; "puppet";
    "jenkins"; "gitlab"; "github actions"; "circleci";
    "aws"; "gcp"; "azure"; "cloud";
    "git"; "make"; "cmake"; "gradle"; "maven"; "npm"; "yarn"; "pip" ].

Definition devKeywords : list string :=
  [ "devops"; "backend"; "infrastructure"; "sre"; "platform";
    "rails"; "web"; "api"; "microservices"; "containers"; "orchestration";
    "automation"; "ci/cd"; "deployment"; "ansible"; "kubernetes"; "k8s" ].

Definition criticalKeywords : list string :=
  ["kernel"; "ansible"; "kubernetes"; "k8s"; "docker"; "devops"].

Section WithToLower.

(** [strings.ToLower] of the Go standard library. *)
Variable ToLower : string -> string.

Definition calculateDevFocus (signals : profile.Signals) : Z :=
  let score := 5 in
  let score :=
    fold_left (fun score kw =>
                 let kwLower := ToLower kw in
                 scanTable (fun critical => strings.Contains kwLower critical)
                           2 criticalKeywords score)
              (profile.Keywords signals) score in
  let score :=
    fold_left (fun score tech =>
                 let techLower := ToLower tech in
                 scanTable (fun dev => String.eqb techLower dev
                                       || strings.Contains techLower dev)
                           1 devTech score)
              (profile.TechStack signals) score in
  let score :=
    fold_left (fun score kw =>
                 let kwLower := ToLower kw in
                 scanTable (fun dev => String.eqb kwLower dev
                                       || strings.Contains kwLower dev)
                           1 devKeywords score)
              (profile.Keywords signals) score in
  clamp score 0 10.

Definition calculateDimensions (signals : profile.Signals) : UserDimensions :=
  {| RollingScore := calculateRollingPreference signals;
     DIYScore := calculateDIYPreference signals;
     PerformanceScore := calculatePerformanceNeed signals;
     DevScore := calculateDevFocus signals |}.

(** *** findBestMatch *)

Definition maxDist : R := 20.0%R.
Definition alpha : R := 0.90%R.
Definition beta : R := 0.10%R.
Definition maxPopularity : R := 3790.0%R.

(** [float64(a - b)] for [int] operands. *)
Definition diff (a b : Z) : R := IZR (Int64.sub a b).

Definition distance (dims : UserDimensions) (distro : Distro) : R :=
  sqrt (diff (RollingScore dims) (Rolling distro) ^ 2 +
        diff (DIYScore dims) (DIY distro) ^ 2 +
        diff (PerformanceScore dims) (Performance distro) ^ 2 +
        diff (DevScore dims) (DevFocus distro) ^ 2)%R.

Definition similarity (dims : UserDimensions) (distro : Distro) : R :=
  let normDist := (distance dims distro / maxDist)%R in
  let normDist := if Rlt_dec normDist 0 then 0%R else normDist in
  let normDist := if Rlt_dec 1 normDist then 1%R else normDist in
  (1.0 - normDist)%R.

Definition popNorm (distro : Distro) : R :=
  let popNorm := 0.0%R in
  if Popularity distro >? 0 then
    let popNorm :=
      (ln (IZR (Popularity distro) + 1.0) / ln (maxPopularity + 1.0))%R in
    let popNorm := if Rlt_dec popNorm 0 then 0%R else popNorm in
    let popNorm := if Rlt_dec 1 popNorm then 1%R else popNorm in
    popNorm
  else popNorm.

Definition trendMultiplier (distro : Distro) : R :=
  if Trend_ distro =? TrendUp then 1.08%R
  else if Trend_ distro =? TrendDown then 0.97%R
  else 1.0%R.

(** [finalScore] of one loop iteration: the candidate's composite. *)
Definition composite (dims : UserDimensions) (distro : Distro) : R :=
  ((alpha * similarity dims distro + beta * popNorm distro)
   * trendMultiplier distro)%R.

(** The [continue] guard at the head of the loop body. *)
Definition skipped (signals : profile.Signals) (distro : Distro) : bool :=
  String.eqb (profile.ExperienceLevel_ signals) profile.ExpSenior
  && (Popularity distro <? 500).

(** One iteration of the selection loop on the state [(best, bestScore)]. *)
Definition selectStep (dims : UserDimensions) (signals : profile.Signals)
           (st : MatchResult * R) (distro : Distro) : MatchResult * R :=
  let '(best, bestScore) := st in
  if skipped signals distro then (best, bestScore)
  else
    let finalScore := composite dims distro in
    if Rlt_dec bestScore finalScore
    then ({| distro := distro; matchScore := finalScore |}, finalScore)
    else (best, bestScore).

(** The selection loop, from [var best MatchResult; bestScore := 0.0]. *)
Definition selectBest (e : Engine) (dims : UserDimensions)
           (signals : profile.Signals) : MatchResult :=
  fst (fold_left (selectStep dims signals) (distros e) (zeroMatch, 0.0%R)).

(** [best.matchScore *= f] *)
Definition scale (best : MatchResult) (f : R) : MatchResult :=
  {| distro := distro best; matchScore := (matchScore best * f)%R |}.

Definition findBestMatch (e : Engine) (dims : UserDimensions)
           (signals : profile.Signals) : MatchResult :=
  let best := selectBest e dims signals in
  if String.eqb (profile.ExperienceLevel_ signals) profile.ExpSenior then
    let best :=
      if (DevScore dims >=? 8) && (DevFocus (distro best) <=? 7)
      then scale best 0.85%R else best in
    let best :=
      if (DIYScore dims >=? 8) && (Easy (distro best) >=? 9)
      then scale best 0.90%R else best in
    best
  else best.

(** *** calculateFinalScore *)

(** [int(math.Round(x))]: nearest integer, halves away from zero. *)
Definition roundToInt (x : R) : Z :=
  if Rle_dec 0 x then Int_part (x + / 2)%R else - Int_part (- x + / 2)%R.

Definition baseScore (match_ : MatchResult) : Z :=
  roundToInt (matchScore match_ * 100.0)%R.

Definition countIf (b : bool) (n : Z) : Z := if b then Int64.add n 1 else n.

Definition calculateFinalScore (e : Engine) (match_ : MatchResult)
           (dims : UserDimensions) (signals : profile.Signals) : Z :=
  let baseScore := baseScore match_ in
  let adjustment := 0 in
  let distro := distro match_ in
  let adjustment :=
    if String.eqb (profile.ExperienceLevel_ signals) profile.ExpJunior then
      let adjustment :=
        if Easy distro >=? 8 then Int64.add adjustment 5 else adjustment in
      let adjustment :=
        if DIY distro >=? 9 then Int64.sub adjustment 10 else adjustment in
      adjustment
    else if String.eqb (profile.ExperienceLevel_ signals) profile.ExpSenior then
      let adjustment :=
        if DevFocus distro >=? 9 then Int64.add adjustment 5 else adjustment in
      let adjustment :=
        if DIY distro >=? 7 then Int64.add adjustment 3 else adjustment in
      let adjustment :=
        if (Easy distro >=? 10) && (DIY distro <=? 2)
        then Int64.sub adjustment 3 else adjustment in
      adjustment
    else adjustment in
  let adjustment :=
    if (DevScore dims >=? 8) && (DevFocus distro <=? 5)
    then Int64.sub adjustment 5 else adjustment in
  let adjustment :=
    if (PerformanceScore dims >=? 8) && (Performance distro <=? 5)
    then Int64.sub adjustment 5 else adjustment in
  let perfectMatches := 0 in
  let perfectMatches :=
    countIf (abs (Int64.sub (RollingScore dims) (Rolling distro)) <=? 1)
            perfectMatches in
  let perfectMatches :=
    countIf (abs (Int64.sub (DIYScore dims) (DIY distro)) <=? 1)
            perfectMatches in
  let perfectMatches :=
    countIf (abs (Int64.sub (PerformanceScore dims) (Performance distro)) <=? 1)
            perfectMatches in
  let perfectMatches :=
    countIf (abs (Int64.sub (DevScore dims) (DevFocus distro)) <=? 1)
            perfectMatches in
  let adjustment :=
    if perfectMatches >=? 3 then Int64.add adjustment 8
    else if perfectMatches =? 2 then Int64.add adjustment 4
    else adjustment in
  let adjustment :=
    if Popularity distro <? 150 then Int64.sub adjustment 3 else adjustment in
  let adjustment :=
    if (Trend_ distro =? TrendDown) && (Popularity distro <? 300)
    then Int64.sub adjustment 5 else adjustment in
  let finalScore := Int64.add baseScore adjustment in
  clamp finalScore 0 100.

(** *** determineCategory *)

Definition determineCategory (e : Engine) (score : Z) : profile.FitCategory :=
  if score >=? 75 then profile.FitStrong
  else if score >=? 50 then profile.FitPotential
  else profile.FitNone.

(** *** buildExplanation *)

Definition buildExplanation (e : Engine) (match_ : MatchResult)
           (dims : UserDimensions) (score : Z) : string :=
  let distro := distro match_ in
  let explanation :=
    ("Basado en tu perfil, recomendamos " ++ Name distro ++ ". ")%string in
  let explanation :=
    if (RollingScore dims >=? 7) && (Rolling distro >=? 7)
    then (explanation ++ "Prefieres tecnologías actuales y " ++ Name distro
          ++ " es rolling release. ")%string
    else explanation in
  let explanation :=
    if (DIYScore dims >=? 7) && (DIY distro >=? 7)
    then (explanation ++ "Tu perfil indica que te gusta personalizar, "
          ++ Name distro ++ " ofrece control total. ")%string
    else explanation in
  let explanation :=
    if (PerformanceScore dims >=? 7) && (Performance distro >=? 8)
    then (explanation ++ "Necesitas alto rendimiento y " ++ Name distro
          ++ " está optimizada para ello. ")%string
    else explanation in
  let explanation :=
    if Trend_ distro =? TrendUp
    then (explanation ++ "Además, está en crecimiento activo. ")%string
    else explanation in
  explanation.

(** *** Score *)

Definition Score (e : Engine) (signals : profile.Signals) : ScoreOutput :=
  let dimensions := calculateDimensions signals in
  let bestMatch := findBestMatch e dimensions signals in
  let finalScore := calculateFinalScore e bestMatch dimensions signals in
  let category := determineCategory e finalScore in
  let explanation := buildExplanation e bestMatch dimensions finalScore in
  {| Result_ := {| profile.Score := finalScore;
                   profile.Category := category;
                   profile.Explanation := explanation;
                   profile.Confidence := matchScore bestMatch |};
     BestDistroID := ID (distro bestMatch);
     BestDistroName := Name (distro bestMatch) |}.

End WithToLower.

End score.


(** ** The shipped catalog *)

Module catalog.
Import score.

Definition Top50Distros : list Distro :=
  [ mkDistro "cachyos" "CachyOS" 10 6 6 10 9 3698 TrendUp;
    mkDistro "mint" "Linux Mint" 1 10 2 6 6 2714 TrendDown;
    mkDistro "mx" "MX Linux" 3 8 4 6 6 1951 TrendStable;
    mkDistro "debian" "Debian" 1 7 6 7 8 1589 TrendStable;
    mkDistro "endeavour" "EndeavourOS" 10 7 7 8 9 1529 TrendUp;
    mkDistro "pop" "Pop!_OS" 4 9 3 8 9 1346 TrendStable;
    mkDistro "manjaro" "Manjaro" 10 8 5 7 8 1105 TrendStable;
    mkDistro "ubuntu" "Ubuntu" 2 10 2 7 9 1072 TrendStable;
    mkDistro "fedora_newlogo_newcolor" "Fedora" 5 8 4 8 9 1048 TrendStable;
    mkDistro "zorin" "Zorin OS" 1 10 1 6 5 1004 TrendStable;
    mkDistro "suse" "openSUSE" 6 7 6 8 8 789 TrendStable;
    mkDistro "nobara" "Nobara" 8 7 4 9 6 721 TrendUp;
    mkDistro "elementary" "elementary OS" 1 10 1 6 5 593 TrendStable;
    mkDistro "nixos" "NixOS" 10 2 10 9 10 555 TrendUp;
    mkDistro "garuda" "Garuda Linux" 10 7 6 9 8 452 TrendStable;
    mkDistro "kali" "Kali Linux" 5 5 6 6 7 419 TrendStable;
    mkDistro "arch" "Arch Linux" 10 3 10 9 9 373 TrendStable;
    mkDistro "alpine" "Alpine Linux" 5 3 8 9 8 353 TrendUp;
    mkDistro "kubuntu" "Kubuntu" 2 9 3 6 7 313 TrendStable;
    mkDistro "lite" "Linux Lite" 1 10 1 6 4 307 TrendStable;
    mkDistro "tails" "Tails" 3 6 2 4 5 324 TrendStable;
    mkDistro "parrot" "Parrot OS" 5 6 5 6 7 254 TrendStable;
    mkDistro "void" "Void Linux" 10 3 9 9 8 203 TrendStable;
    mkDistro "gentoo" "Gentoo" 10 1 10 10 9 218 TrendStable;
    mkDistro "artix" "Artix Linux" 10 4 9 8 8 216 TrendStable;
    mkDistro "solus" "Solus" 6 9 3 7 7 357 TrendStable;
    mkDistro "qubes" "Qubes OS" 3 3 7 6 7 185 TrendStable;
    mkDistro "rebornos" "RebornOS" 10 7 6 8 8 150 TrendStable;
    mkDistro "antix" "antiX" 3 6 5 8 5 508 TrendStable;
    mkDistro "lubuntu" "Lubuntu" 2 9 2 7 6 241 TrendStable;
    mkDistro "xubuntu" "Xubuntu" 2 9 2 7 6 216 TrendStable;
    mkDistro "openmandriva" "OpenMandriva" 6 7 4 7 7 262 TrendStable;
    mkDistro "deepin" "Deepin" 3 9 2 6 6 238 TrendStable ].

End catalog.


(** ** More of Go's standard library *)

Module gostd.

(** [fmt.Sprintf("%d", n)] *)
Definition itoa (n : Z) : string := NilZero.string_of_int (Z.to_int n).

(** [len(s)] for a slice and for a string. *)
Definition len {A : Type} (s : list A) : Z := Z.of_nat (List.length s).
Definition strlen (s : string) : Z := Z.of_nat (String.length s).

(** [append(s, x)] *)
Definition append {A : Type} (s : list A) (x : A) : list A := (s ++ [x])%list.

(** [s[:n]] for a slice, with [0 <= n <= len(s)]. *)
Definition upto {A : Type} (s : list A) (n : Z) : list A := firstn (Z.to_nat n) s.

(** [strings.Join(elems, sep)] *)
Fixpoint Join (elems : list string) (sep : string) : string :=
  match elems with
  | [] => ""
  | x :: rest =>
      match rest with
      | [] => x
      | _ :: _ => (x ++ sep ++ Join rest sep)%string
      end
  end.





(** [strings.Fields] restricted to ASCII input: the maximal runs of bytes
    other than tab, line feed, vertical tab, form feed, carriage return and
    space. *)
Definition isSpace (c : ascii) : bool :=
  let n := nat_of_ascii c in
  (Nat.leb 9 n && Nat.leb n 13) || Nat.eqb n 32.

Fixpoint fieldsFrom (word : string) (s : string) : list string :=
  match s with
  | EmptyString => if String.eqb word "" then [] else [word]
  | String c s' =>
      if isSpace c
      then if String.eqb word "" then fieldsFrom "" s'
           else word :: fieldsFrom "" s'
      else fieldsFrom (word ++ String c "") s'
  end.

Definition asciiFields (s : string) : list string := fieldsFrom "" s.

End gostd.

(** ** Package [profile]: the collected data and the stored profile *)

Module profiledata.

Record RawData : Type := mkRawData {
  Bio : string;
  Repositories : list string;
  Website : string;
  Location : string;
  Email : string;
  ReadmeText : option string
}.

Record Recommendation : Type := mkRecommendation {
  DistroID : string;
  DistroName : string
}.

Section WithTime.
(** [time.Time] *)
Variable Time : Type.

Record Profile : Type := mkProfile {
  Username : string;
  Source : string;
  RawData_ : RawData;
  Signals_ : profile.Signals;
  Result_ : profile.Result;
  Recommendation_ : Recommendation;
  CreatedAt : Time
}.

(** [p.RawData.ReadmeText = nil] *)
Definition ClearLargeData (p : Profile) : Profile :=
  {| Username := Username p;
     Source := Source p;
     RawData_ := {| Bio := Bio (RawData_ p);
                    Repositories := Repositories (RawData_ p);
                    Website := Website (RawData_ p);
                    Location := Location (RawData_ p);
                    Email := Email (RawData_ p);
                    ReadmeText := None |};
     Signals_ := Signals_ p;
     Result_ := Result_ p;
     Recommendation_ := Recommendation_ p;
     CreatedAt := CreatedAt p |}.

End WithTime.

End profiledata.

(** ** Package [explain] *)

Module explain.
Import gostd.

Definition buildIntro (result : profile.Result) : string :=
  if String.eqb (profile.Category result) profile.FitStrong then
    "Excelente coincidencia (score: " ++ itoa (profile.Score result) ++ "/100)."
  else if String.eqb (profile.Category result) profile.FitPotential then
    "Coincidencia moderada (score: " ++ itoa (profile.Score result) ++ "/100)."
  else if String.eqb (profile.Category result) profile.FitNone then
    "Coincidencia baja (score: " ++ itoa (profile.Score result) ++ "/100)."
  else
    "Score: " ++ itoa (profile.Score result) ++ "/100.".

Definition min (a b : Z) : Z := if a <? b then a else b.

Definition buildReasons (signals : profile.Signals) : string :=
  let reasons : list string := [] in
  let reasons :=
    if len (profile.TechStack signals) >? 0 then
      let techs :=
        Join (upto (profile.TechStack signals)
                   (min 3 (len (profile.TechStack signals)))) ", " in
      append reasons ("Tu stack incluye: " ++ techs)
    else reasons in
  let reasons :=
    if negb (String.eqb (profile.ExperienceLevel_ signals) "") then
      let exp :=
        if String.eqb (profile.ExperienceLevel_ signals) profile.ExpJunior
        then "junior"
        else if String.eqb (profile.ExperienceLevel_ signals) profile.ExpMid
        then "intermedio"
        else if String.eqb (profile.ExperienceLevel_ signals) profile.ExpSenior
        then "senior"
        else "" in
      append reasons ("nivel " ++ exp)
    else reasons in
  let reasons :=
    if len (profile.Topics signals) >? 0 then
      let topics :=
        Join (upto (profile.Topics signals)
                   (min 2 (len (profile.Topics signals)))) ", " in
      append reasons ("interés en " ++ topics)
    else reasons in
  if len reasons =? 0 then ""
  else Join reasons ", " ++ ".".

(** [int(x)] for a [float64]: truncation toward zero. *)
Definition truncToInt (x : R) : Z :=
  if Rle_dec 0 x then Int_part x else - Int_part (- x).

Definition buildConfidence (result : profile.Result) : string :=
  let confidencePercent := truncToInt (profile.Confidence result * 100)%R in
  if confidencePercent >=? 80 then
    "Alta confianza (" ++ itoa confidencePercent ++ "%)."
  else if confidencePercent >=? 60 then
    "Confianza moderada (" ++ itoa confidencePercent ++ "%)."
  else
    "Confianza baja (" ++ itoa confidencePercent ++ "%).".

Definition Explain (result : profile.Result) (signals : profile.Signals)
  : string :=
  let parts : list string := [] in
  let intro := buildIntro result in
  let parts := append parts intro in
  let reasons := buildReasons signals in
  let parts :=
    if negb (String.eqb reasons "") then append parts reasons
    else parts in
  let confidence := buildConfidence result in
  let parts := append parts confidence in
  Join parts " ".

End explain.

(** ** Package [analyze] *)

Module analyze.
Import gostd profiledata.

(** The map literal [techHashtags], as its list of entries. *)
Definition techHashtags : list (string * string) :=
  [ ("#ansible", "ansible");
    ("#k8s", "kubernetes");
    ("#kubernetes", "kubernetes");
    ("#docker", "docker");
    ("#python", "python");
    ("#go", "go");
    ("#rust", "rust");
    ("#javascript", "javascript");
    ("#typescript", "typescript");
    ("#ruby", "ruby");
    ("#php", "php");
    ("#java", "java");
    ("#devops", "devops");
    ("#terraform", "terraform");
    ("#aws", "aws");
    ("#gcp", "gcp");
    ("#azure", "azure");
    ("#linux", "linux");
    ("#nodejs", "nodejs");
    ("#react", "react");
    ("#vue", "vue");
    ("#django", "django");
    ("#rails", "rails");
    ("#drupal", "drupal") ].

(** [tech, exists := m[key]] *)
Fixpoint lookup (m : list (string * string)) (key : string) : option string :=
  match m with
  | [] => None
  | (k, v) :: m' => if String.eqb k key then Some v else lookup m' key
  end.

(** The fields of [rawSignals], as [json.Unmarshal] fills them. *)
Record rawSignals : Type := mkRawSignals {
  rawTopics : list string;
  rawSentiment : string;
  rawExperienceLevel : string;
  rawKeywords : list string;
  rawTechStack : list string
}.

Section WithStrings.

(** [strings.ToLower], [strings.Fields] and [strings.TrimSpace] follow
    Unicode case and white space; [json.Unmarshal] into [rawSignals] is the
    standard decoder. *)
Variable ToLower : string -> string.
Variable Fields : string -> list string.
Variable TrimSpace : string -> string.
Variable Unmarshal : string -> option rawSignals.

Definition extractHashtagTechs (bio : string) : list string :=
  let techs : list string := [] in
  let words := Fields bio in
  fold_left (fun techs word =>
               let wordLower := ToLower word in
               match lookup techHashtags wordLower with
               | Some tech => append techs tech
               | None => techs
               end)
            words techs.

Definition contains (slice : list string) (item : string) : bool :=
  let itemLower := ToLower item in
  existsb (fun s => String.eqb (ToLower s) itemLower) slice.

(** The post-processing block of [Analyze], after [parseSignals]
    succeeded. *)
Definition addBioHashtags (signals : profile.Signals) (bio : string)
  : profile.Signals :=
  if negb (String.eqb bio "") then
    let bioTechs := extractHashtagTechs bio in
    fold_left (fun signals tech =>
                 if negb (contains (profile.TechStack signals) tech) then
                   {| profile.Topics := profile.Topics signals;
                      profile.Sentiment_ := profile.Sentiment_ signals;
                      profile.ExperienceLevel_ := profile.ExperienceLevel_ signals;
                      profile.Keywords := profile.Keywords signals;
                      profile.TechStack :=
                        append (profile.TechStack signals) tech |}
                 else signals)
              bioTechs signals
  else signals.

Definition buildPrompt (data : RawData) : string :=
  let parts : list string := [] in
  let parts :=
    append parts ("Analiza el siguiente perfil y extrae señales estructuradas:") in
  let parts :=
    append parts ("Presta ESPECIAL atención a hashtags, menciones de tecnologías en bio, y herramientas usadas.") in
  let parts :=
    if negb (String.eqb (Bio data) "")
    then append parts ("Bio: " ++ Bio data) else parts in
  let parts :=
    if len (Repositories data) >? 0 then
      let repos := "Repositorios: " ++ Join (Repositories data) ", " in
      append parts repos
    else parts in
  let parts :=
    if negb (String.eqb (Website data) "")
    then append parts ("Website: " ++ Website data) else parts in
  let parts :=
    if negb (String.eqb (Location data) "")
    then append parts ("Location: " ++ Location data) else parts in
  let parts :=
    match ReadmeText data with
    | Some text =>
        if negb (String.eqb text "") then
          let readme := text in
          let readme :=
            if strlen readme >? 2000 then substring 0 2000 readme
            else readme in
          append parts ("README (primeras líneas): " ++ readme)
        else parts
    | None => parts
    end in
  Join parts (String "010" (String "010" "")).


End WithStrings.

End analyze.

(** ** Package [httpapi]: the analysis pipeline *)

Module httpapi.
Import gostd profiledata.

Section Pipeline.

(** The collaborators of the handler: [h.collector.Collect] and
    [h.analyzer.Analyze] return a value or an error message; the explainer
    is the [SimpleExplainer] that [initComponents] installs; [now] is the
    value of [time.Now()]. *)
Variable Time : Type.
Variable ToLower : string -> string.
Variable Collect : string -> RawData + string.
Variable Analyze : RawData -> profile.Signals + string.
Variable engine : score.Engine.
Variable now : Time.

Definition runPipeline (username : string) : Profile Time + string :=
  match Collect username with
  | inr err => inr ("collection failed: " ++ err)
  | inl rawData =>
      match Analyze rawData with
      | inr err => inr ("analysis failed: " ++ err)
      | inl signals =>
          let scoreOut := score.Score ToLower engine signals in
          let explanation := explain.Explain (score.Result_ scoreOut) signals in
          let result :=
            {| profile.Score := profile.Score (score.Result_ scoreOut);
               profile.Category := profile.Category (score.Result_ scoreOut);
               profile.Explanation := explanation;
               profile.Confidence := profile.Confidence (score.Result_ scoreOut) |} in
          let prof :=
            {| Username := username;
               Source := "github";
               RawData_ := rawData;
               Signals_ := signals;
               Result_ := result;
               Recommendation_ :=
                 {| DistroID := score.BestDistroID scoreOut;
                    DistroName := score.BestDistroName scoreOut |};
               CreatedAt := now |} in
          inl (ClearLargeData Time prof)
      end
  end.

End Pipeline.

End httpapi.

(** * Properties *)

(** ** Arithmetic of the 64-bit wrap-around *)

Module Int64Facts.
Import Int64.

Lemma wrap_in_range (z : Z) : in_range (wrap z).
Proof.
  unfold in_range, wrap, min_int, max_int, modulus.
  pose proof (Z.mod_pos_bound (z + 2 ^ 63) (2 ^ 64) ltac:(lia)). lia.
Qed.

Lemma wrap_id (z : Z) : in_range z -> wrap z = z.
Proof.
  unfold in_range, wrap, min_int, max_int, modulus. intros H.
  rewrite Z.mod_small; lia.
Qed.

Lemma wrap_wrap_add (a b : Z) : wrap (wrap a + b) = wrap (a + b).
Proof.
  unfold wrap, modulus.
  replace ((a + 2 ^ 63) mod 2 ^ 64 - 2 ^ 63 + b + 2 ^ 63)
    with ((a + 2 ^ 63) mod 2 ^ 64 + b) by lia.
  rewrite Zplus_mod_idemp_l.
  replace (a + 2 ^ 63 + b) with (a + b + 2 ^ 63) by lia. reflexivity.
Qed.

End Int64Facts.

Module scoreFacts.
Import Int64 Int64Facts profile score catalog.

(** ** Vocabulary of the statements and sample inputs *)

(** Number of entries of [table] that satisfy [cond]. *)
Definition hits (cond : string -> bool) (table : list string) : Z :=
  Z.of_nat (List.length (filter cond table)).

(** [n] additions of [delta], each one wrapped. *)
Definition bump (delta n : Z) (score : Z) : Z :=
  if n =? 0 then score else wrap (score + delta * n).

Definition isScriptingLang (tech : string) : bool :=
  existsb (String.eqb tech) scriptingLangs.

(** Entries of the tech stack that are scripting languages, with multiplicity. *)
Definition scriptingOccurrences (techStack : list string) : Z :=
  Z.of_nat (List.length (filter isScriptingLang techStack)).

(** Scripting languages that occur in the tech stack, each counted once. *)
Definition distinctScriptingTerms (techStack : list string) : Z :=
  Z.of_nat (List.length
              (filter (fun lang => existsb (String.eqb lang) techStack)
                      scriptingLangs)).

(** What the loop state can be after scanning part of the catalog [ds]:
    the initial zero value, or an eligible item of [ds] with a positive
    composite, recorded together with that composite. *)
Definition selected (dims : UserDimensions) (signals : Signals)
           (ds : list Distro) (st : MatchResult * R) : Prop :=
  st = (zeroMatch, 0%R) \/
  exists d, In d ds /\ skipped signals d = false /\
            (0 < composite dims d)%R /\
            st = (mkMatch d (composite dims d), composite dims d).

(** Two entries of the shipped catalog, both below the senior threshold. *)
Definition nicheCatalog : list Distro :=
  [ mkDistro "arch" "Arch Linux" 10 3 10 9 9 373 TrendStable;
    mkDistro "gentoo" "Gentoo" 10 1 10 10 9 218 TrendStable ].

Definition kernelHacker : Signals :=
  mkSignals ["linux"] SentimentPos ExpSenior ["kernel"; "gentoo"] ["c"; "rust"].

(** An eligible item at distance 20 from the baseline vector and with
    popularity 0: its composite is exactly 0. *)
Definition remoteDistro : Distro :=
  mkDistro "remote" "Remote" 25 5 5 3 5 0 TrendStable.

Definition blankMid : Signals := mkSignals [] SentimentNeu ExpMid [] [].

(** The stacking scenario: a senior vector with devFocus 9 and diy 9 against
    a winner with devFocus 6 and easy 10. *)
Definition friendlyDistro : Distro :=
  mkDistro "friendly" "Friendly" 5 10 9 3 6 1000 TrendStable.

Definition seniorTinkerer : Signals :=
  mkSignals [] SentimentNeu ExpSenior [] [].

Definition cachyos : Distro :=
  mkDistro "cachyos" "CachyOS" 10 6 6 10 9 3698 TrendUp.

Definition performanceFan : Signals :=
  mkSignals ["gamedev"] SentimentPos ExpMid
            ["gaming"; "performance"; "arch"; "simple"]
            ["rust"; "zig"; "mojo"; "c++"; "cuda"].

(** ** Sanity checks of the string helpers and of the extractor *)

Example Contains_infix : strings.Contains "my-kubernetes-lab" "kubernetes" = true.
Proof. reflexivity. Qed.

Example Contains_empty_substr : strings.Contains "abc" "" = true.
Proof. reflexivity. Qed.

Example Contains_absent : strings.Contains "rust" "go" = false.
Proof. reflexivity. Qed.

Example asciiToLower_mixed : strings.asciiToLower "DevOps/K8s" = "devops/k8s".
Proof. reflexivity. Qed.

Example kernelHacker_dimensions :
  calculateDimensions strings.asciiToLower kernelHacker = mkDims 8 10 5 9.
Proof. reflexivity. Qed.

Example wrap_max_int_succ : Int64.add Int64.max_int 1 = Int64.min_int.
Proof. reflexivity. Qed.

(** ** The table scan in closed form *)

Lemma scanTable_bump cond delta table :
  forall score, scanTable cond delta table score = bump delta (hits cond table) score.
Proof.
  unfold scanTable, hits, bump.
  induction table as [|p table IH]; intros score; simpl.
  - reflexivity.
  - rewrite IH. destruct (cond p); [|reflexivity].
    change (List.length (p :: filter cond table))
      with (Datatypes.S (List.length (filter cond table))).
    rewrite Nat2Z.inj_succ.
    set (n := Z.of_nat (List.length (filter cond table))).
    assert (Hn : 0 <= n) by (unfold n; lia).
    destruct (Z.eqb_spec n 0) as [E|E];
      destruct (Z.eqb_spec (Z.succ n) 0) as [E'|E']; try lia.
    + unfold add. f_equal. lia.
    + unfold add. rewrite wrap_wrap_add. f_equal. lia.
Qed.

Lemma bump_comm d1 n1 d2 n2 score :
  bump d1 n1 (bump d2 n2 score) = bump d2 n2 (bump d1 n1 score).
Proof.
  unfold bump. destruct (n1 =? 0), (n2 =? 0); try reflexivity.
  rewrite !wrap_wrap_add. f_equal. lia.
Qed.

(** ** Loops whose iterations commute *)

Section FoldPermutation.
Variables (A St : Type) (step : St -> A -> St).
Hypothesis step_comm : forall s x y, step (step s x) y = step (step s y) x.

Lemma fold_left_Permutation (l l' : list A) :
  Permutation l l' -> forall s, fold_left step l s = fold_left step l' s.
Proof.
  induction 1 as [|x l l' _ IH|x y l|l l' l'' _ IH1 _ IH2]; intros s; simpl.
  - reflexivity.
  - apply IH.
  - now rewrite step_comm.
  - now rewrite IH1.
Qed.

End FoldPermutation.

(** An outer loop whose body is one table scan keyed on the element. *)
Lemma scan_loop_Permutation (cond : string -> string -> bool) delta table l l' :
  Permutation l l' ->
  forall score,
    fold_left (fun score x => scanTable (cond x) delta table score) l score =
    fold_left (fun score x => scanTable (cond x) delta table score) l' score.
Proof.
  apply fold_left_Permutation. intros s x y.
  rewrite !scanTable_bump. apply bump_comm.
Qed.

Lemma diyKeywordScore_Permutation l l' :
  Permutation l l' -> diyKeywordScore l = diyKeywordScore l'.
Proof.
  intros HP. unfold diyKeywordScore.
  apply fold_left_Permutation; [|exact HP]. intros s x y. cbv zeta.
  rewrite !scanTable_bump.
  rewrite (bump_comm 3 _ (-2)). rewrite (bump_comm 3 (hits (String.eqb y) diyKeywords) 3).
  rewrite (bump_comm (-2) (hits (String.eqb y) easyKeywords) (-2)).
  rewrite (bump_comm 3 (hits (String.eqb x) diyKeywords) (-2)). reflexivity.
Qed.

Lemma scriptCount_Permutation l l' :
  Permutation l l' -> scriptCount l = scriptCount l'.
Proof.
  intros HP. unfold scriptCount.
  now apply (scan_loop_Permutation String.eqb).
Qed.

(** ** Range of [clamp] *)

Lemma clamp_range value lo hi : lo <= hi -> lo <= clamp value lo hi <= hi.
Proof.
  unfold clamp. intros H.
  destruct (Z.ltb_spec value lo); [lia|].
  destruct (Z.gtb_spec value hi); lia.
Qed.

(** ** Scripting languages in the tech stack *)

Lemma hits_scriptingLangs tech :
  hits (String.eqb tech) scriptingLangs = if isScriptingLang tech then 1 else 0.
Proof.
  unfold hits, isScriptingLang, scriptingLangs. simpl.
  destruct (String.eqb_spec tech "bash") as [->|_]; [reflexivity|].
  destruct (String.eqb_spec tech "lua") as [->|_]; [reflexivity|].
  destruct (String.eqb_spec tech "python") as [->|_]; reflexivity.
Qed.

Lemma scriptCount_from techStack :
  forall count,
    0 <= count ->
    count + Z.of_nat (List.length techStack) <= max_int ->
    fold_left (fun scriptCount tech =>
                 scanTable (String.eqb tech) 1 scriptingLangs scriptCount)
              techStack count
    = count + scriptingOccurrences techStack.
Proof.
  unfold scriptingOccurrences.
  induction techStack as [|tech techStack IH]; intros count H0 Hlen.
  - simpl. lia.
  - cbn [fold_left filter]. cbn [List.length] in Hlen.
    rewrite scanTable_bump, hits_scriptingLangs.
    destruct (isScriptingLang tech); unfold bump; simpl Z.eqb; cbv iota.
    + rewrite wrap_id by (unfold in_range, min_int, max_int in *; lia).
      rewrite IH by lia. cbn [List.length]. lia.
    + rewrite IH by lia. reflexivity.
Qed.

Lemma scriptCount_occurrences techStack :
  Z.of_nat (List.length techStack) <= max_int ->
  scriptCount techStack = scriptingOccurrences techStack.
Proof.
  intros H. unfold scriptCount. rewrite scriptCount_from; lia.
Qed.

(** ** Claims about the dimension extractor and the categorizer *)

Section ExtractorClaims.
Variable ToLower : string -> string.

(** C8. Signals whose Topics, Keywords and TechStack are empty and whose
    experience level is mid yield exactly the baseline vector: rolling 5,
    diy 5, performance 3, devFocus 5. *)
Theorem C8_empty_mid_signals_baseline (sentiment : Sentiment) :
  calculateDimensions ToLower
    {| Topics := []; Sentiment_ := sentiment; ExperienceLevel_ := ExpMid;
       Keywords := []; TechStack := [] |}
  = {| RollingScore := 5; DIYScore := 5; PerformanceScore := 3; DevScore := 5 |}.
Proof. reflexivity. Qed.

(** C6. The dimension extractor is order-insensitive: permuting the Keywords
    list and the TechStack list of a Signals value leaves all four axes of
    the extracted vector unchanged. *)
Theorem C6_extractor_order_insensitive
        (topics : list string) (sentiment : Sentiment) (level : ExperienceLevel)
        (keywords keywords' techStack techStack' : list string) :
  Permutation keywords keywords' ->
  Permutation techStack techStack' ->
  calculateDimensions ToLower
    (mkSignals topics sentiment level keywords techStack)
  = calculateDimensions ToLower
      (mkSignals topics sentiment level keywords' techStack').
Proof.
  intros HK HT. unfold calculateDimensions. f_equal.
  - unfold calculateRollingPreference. cbn [TechStack Keywords ExperienceLevel_].
    rewrite (scan_loop_Permutation String.eqb _ _ _ _ HT).
    now rewrite (scan_loop_Permutation String.eqb _ _ _ _ HK).
  - unfold calculateDIYPreference. cbn [TechStack Keywords].
    now rewrite (diyKeywordScore_Permutation _ _ HK),
                (scriptCount_Permutation _ _ HT).
  - unfold calculatePerformanceNeed. cbn [TechStack Keywords].
    rewrite (scan_loop_Permutation String.eqb _ _ _ _ HK).
    now rewrite (scan_loop_Permutation String.eqb _ _ _ _ HT).
  - unfold calculateDevFocus. cbn [TechStack Keywords].
    rewrite (scan_loop_Permutation
               (fun kw critical => strings.Contains (ToLower kw) critical)
               _ _ _ _ HK).
    rewrite (scan_loop_Permutation
               (fun tech dev => String.eqb (ToLower tech) dev
                                || strings.Contains (ToLower tech) dev)
               _ _ _ _ HT).
    now rewrite (scan_loop_Permutation
                   (fun kw dev => String.eqb (ToLower kw) dev
                                  || strings.Contains (ToLower kw) dev)
                   _ _ _ _ HK).
Qed.

(** C3 (amended). The diy axis receives the +2 flat bonus exactly when the
    tech-stack list holds at least two entries, counted with multiplicity,
    that equal one of bash, lua, python (the list being no longer than the
    largest [int], as every Go slice is). *)
Theorem C3_scripting_bonus_counts_occurrences (signals : Signals) :
  Z.of_nat (List.length (TechStack signals)) <= max_int ->
  scriptCount (TechStack signals) = scriptingOccurrences (TechStack signals) /\
  calculateDIYPreference signals =
    clamp (if scriptingOccurrences (TechStack signals) >=? 2
           then add (diyKeywordScore (Keywords signals)) 2
           else diyKeywordScore (Keywords signals)) 0 10.
Proof.
  intros H. split.
  - now apply scriptCount_occurrences.
  - unfold calculateDIYPreference. now rewrite scriptCount_occurrences.
Qed.

(** C5. The categorizer is a total threshold map on the integer score:
    75 and above is strong, 50 to 74 is potential, anything else is none;
    in particular 75 is strong, 74 and 50 are potential, 49 is none. *)
Theorem C5_categorizer_threshold_map (e : Engine) (score : Z) :
  (75 <= score -> determineCategory e score = FitStrong) /\
  (50 <= score < 75 -> determineCategory e score = FitPotential) /\
  (score < 50 -> determineCategory e score = FitNone) /\
  determineCategory e 75 = FitStrong /\
  determineCategory e 74 = FitPotential /\
  determineCategory e 50 = FitPotential /\
  determineCategory e 49 = FitNone.
Proof.
  unfold determineCategory.
  repeat split; try reflexivity; intros H.
  - destruct (Z.geb_spec score 75); [reflexivity|lia].
  - destruct (Z.geb_spec score 75); [lia|].
    destruct (Z.geb_spec score 50); [reflexivity|lia].
  - destruct (Z.geb_spec score 75); [lia|].
    destruct (Z.geb_spec score 50); [lia|reflexivity].
Qed.

End ExtractorClaims.

(** C3 (as stated) fails: a tech stack that names bash twice holds one
    distinct scripting term, yet the diy axis is 7, the baseline 5 plus the
    bonus. *)
Lemma C3_repeated_term_gets_bonus :
  let signals := mkSignals [] SentimentNeu ExpMid [] ["bash"; "bash"] in
  distinctScriptingTerms (TechStack signals) = 1 /\
  scriptCount (TechStack signals) = 2 /\
  calculateDIYPreference signals = 7 /\
  clamp (diyKeywordScore (Keywords signals)) 0 10 = 5.
Proof. repeat split. Qed.

Lemma C3_scripting_bonus_witness :
  let signals := mkSignals [] SentimentNeu ExpMid ["arch"] ["lua"; "go"; "lua"] in
  Z.of_nat (List.length (TechStack signals)) <= max_int /\
  calculateDIYPreference signals = 10.
Proof.
  intros signals.
  assert (H : Z.of_nat (List.length (TechStack signals)) <= max_int)
    by (vm_compute; discriminate).
  split; [exact H|].
  rewrite (proj2 (C3_scripting_bonus_counts_occurrences signals H)).
  reflexivity.
Defined.

Lemma C6_extractor_order_insensitive_witness :
  Permutation ["arch"; "simple"] ["simple"; "arch"] /\
  Permutation ["rust"; "bash"; "lua"] ["lua"; "rust"; "bash"] /\
  calculateDimensions strings.asciiToLower
    (mkSignals [] SentimentNeu ExpSenior ["arch"; "simple"] ["rust"; "bash"; "lua"])
  = calculateDimensions strings.asciiToLower
      (mkSignals [] SentimentNeu ExpSenior ["simple"; "arch"] ["lua"; "rust"; "bash"]).
Proof.
  assert (HK : Permutation ["arch"; "simple"] ["simple"; "arch"])
    by apply perm_swap.
  assert (HT : Permutation ["rust"; "bash"; "lua"] ["lua"; "rust"; "bash"]).
  { apply Permutation_sym. apply (Permutation_cons_app ["rust"; "bash"] []).
    apply Permutation_refl. }
  split; [exact HK|]. split; [exact HT|].
  exact (C6_extractor_order_insensitive strings.asciiToLower
           [] SentimentNeu ExpSenior _ _ _ _ HK HT).
Defined.

(** ** The matcher: ranges of the per-candidate quantities *)

Lemma similarity_range dims d : (0 <= similarity dims d <= 1)%R.
Proof.
  unfold similarity. cbv zeta.
  destruct (Rlt_dec (distance dims d / maxDist) 0);
    match goal with |- context [Rlt_dec 1 ?x] => destruct (Rlt_dec 1 x) end;
    lra.
Qed.

Lemma popNorm_range d : (0 <= popNorm d <= 1)%R.
Proof.
  unfold popNorm. cbv zeta.
  destruct (Popularity d >? 0); [|lra].
  match goal with |- context [Rlt_dec ?x 0] => destruct (Rlt_dec x 0) end;
    match goal with |- context [Rlt_dec 1 ?x] => destruct (Rlt_dec 1 x) end;
    lra.
Qed.

Lemma trendMultiplier_range d : (0.97 <= trendMultiplier d <= 1.08)%R.
Proof.
  unfold trendMultiplier.
  destruct (Trend_ d =? TrendUp); [lra|].
  destruct (Trend_ d =? TrendDown); lra.
Qed.

Lemma composite_range dims d : (0 <= composite dims d <= 1.08)%R.
Proof.
  unfold composite, alpha, beta.
  pose proof (similarity_range dims d).
  pose proof (popNorm_range d).
  pose proof (trendMultiplier_range d).
  split; [apply Rmult_le_pos; lra|].
  apply Rle_trans with (1 * trendMultiplier d)%R; [|lra].
  apply Rmult_le_compat_r; lra.
Qed.

(** ** The selection loop *)

Lemma selectStep_selected dims signals ds st d :
  In d ds -> selected dims signals ds st ->
  selected dims signals ds (selectStep dims signals st d).
Proof.
  intros Hin Hst. unfold selectStep. destruct st as [best bestScore].
  destruct (skipped signals d) eqn:Hskip; [exact Hst|]. cbv zeta.
  destruct (Rlt_dec bestScore (composite dims d)) as [Hlt|_]; [|exact Hst].
  right. exists d. repeat split; try assumption.
  destruct Hst as [E|(d' & _ & _ & Hpos & E)]; inversion E; subst; lra.
Qed.

Lemma fold_selected dims signals ds :
  forall l st,
    incl l ds -> selected dims signals ds st ->
    selected dims signals ds (fold_left (selectStep dims signals) l st).
Proof.
  induction l as [|d l IH]; intros st Hincl Hst; simpl; [exact Hst|].
  apply IH.
  - intros x Hx. apply Hincl. now right.
  - apply selectStep_selected; [apply Hincl; now left|exact Hst].
Qed.

Lemma selectBest_cases e dims signals :
  selectBest e dims signals = zeroMatch \/
  exists d, In d (distros e) /\ skipped signals d = false /\
            (0 < composite dims d)%R /\
            selectBest e dims signals = mkMatch d (composite dims d).
Proof.
  unfold selectBest.
  destruct (fold_selected dims signals (distros e) (distros e) (zeroMatch, 0%R))
    as [E|(d & Hin & Hskip & Hpos & E)].
  - apply incl_refl.
  - now left.
  - left. replace (0.0)%R with 0%R by lra. now rewrite E.
  - right. exists d. replace (0.0)%R with 0%R by lra. rewrite E. auto.
Qed.

(** The recorded score never decreases, the best entry carries it, and it
    dominates every eligible candidate scanned. *)
Lemma fold_dominates dims signals :
  forall l st,
    matchScore (fst st) = snd st ->
    let st' := fold_left (selectStep dims signals) l st in
    matchScore (fst st') = snd st' /\
    (snd st <= snd st')%R /\
    forall d, In d l -> skipped signals d = false ->
              (composite dims d <= snd st')%R.
Proof.
  induction l as [|d l IH]; intros st Hst; cbn [fold_left].
  - repeat split; [exact Hst|lra|intros d []].
  - assert (Hstep : matchScore (fst (selectStep dims signals st d))
                    = snd (selectStep dims signals st d) /\
                    (snd st <= snd (selectStep dims signals st d))%R /\
                    (skipped signals d = false ->
                     (composite dims d <= snd (selectStep dims signals st d))%R)).
    { unfold selectStep. destruct st as [best bestScore]. cbn [fst snd] in *.
      destruct (skipped signals d).
      - cbn [fst snd]. repeat split; [exact Hst|lra|discriminate].
      - cbv zeta. destruct (Rlt_dec bestScore (composite dims d));
          cbn [fst snd matchScore]; repeat split; try lra; exact Hst. }
    destruct Hstep as (H1 & H2 & H3).
    destruct (IH _ H1) as (I1 & I2 & I3).
    repeat split; [exact I1|lra|].
    intros d' [<-|Hin] Hskip; [specialize (H3 Hskip); lra|now apply I3].
Qed.

Lemma selectBest_dominates e dims signals d :
  In d (distros e) -> skipped signals d = false ->
  (composite dims d <= matchScore (selectBest e dims signals))%R.
Proof.
  intros Hin Hskip. unfold selectBest.
  destruct (fold_dominates dims signals (distros e) (zeroMatch, 0.0%R))
    as (H1 & _ & H3).
  - cbn. lra.
  - rewrite H1. now apply H3.
Qed.

Lemma selectBest_range e dims signals :
  (0 <= matchScore (selectBest e dims signals) <= 1.08)%R.
Proof.
  destruct (selectBest_cases e dims signals) as [E|(d & _ & _ & _ & E)];
    rewrite E; cbn [matchScore zeroMatch]; [lra|apply composite_range].
Qed.

(** ** The post-selection penalties *)

Lemma findBestMatch_distro e dims signals :
  distro (findBestMatch e dims signals) = distro (selectBest e dims signals).
Proof.
  unfold findBestMatch. cbv zeta.
  destruct (String.eqb _ _); [|reflexivity].
  destruct (_ && _); cbn [scale distro]; destruct (_ && _); reflexivity.
Qed.

Lemma findBestMatch_bounds e dims signals :
  (0.765 * matchScore (selectBest e dims signals)
   <= matchScore (findBestMatch e dims signals)
   <= matchScore (selectBest e dims signals))%R.
Proof.
  pose proof (selectBest_range e dims signals).
  unfold findBestMatch. cbv zeta.
  destruct (String.eqb _ _); [|lra].
  destruct (_ && _); cbn [scale distro matchScore];
    destruct (_ && _); cbn [scale distro matchScore]; lra.
Qed.

Lemma findBestMatch_range e dims signals :
  (0 <= matchScore (findBestMatch e dims signals) <= 1.08)%R.
Proof.
  pose proof (selectBest_range e dims signals).
  pose proof (findBestMatch_bounds e dims signals). lra.
Qed.

Lemma findBestMatch_zero e dims signals :
  selectBest e dims signals = zeroMatch ->
  distro (findBestMatch e dims signals) = zeroDistro /\
  matchScore (findBestMatch e dims signals) = 0%R.
Proof.
  intros E. split.
  - now rewrite findBestMatch_distro, E.
  - pose proof (findBestMatch_bounds e dims signals) as H.
    rewrite E in H. cbn [matchScore zeroMatch] in H. lra.
Qed.

Lemma selectBest_all_skipped e dims signals :
  (forall d, In d (distros e) -> skipped signals d = true) ->
  selectBest e dims signals = zeroMatch.
Proof.
  intros Hall.
  destruct (selectBest_cases e dims signals) as [E|(d & Hin & Hskip & _)];
    [exact E|].
  rewrite (Hall d Hin) in Hskip. discriminate.
Qed.

Lemma selectBest_no_positive e dims signals :
  (forall d, In d (distros e) -> skipped signals d = false ->
             composite dims d = 0%R) ->
  selectBest e dims signals = zeroMatch.
Proof.
  intros Hall.
  destruct (selectBest_cases e dims signals) as [E|(d & Hin & Hskip & Hpos & _)];
    [exact E|].
  rewrite (Hall d Hin Hskip) in Hpos. lra.
Qed.

Lemma senior_low_popularity_skipped signals d :
  ExperienceLevel_ signals = ExpSenior -> Popularity d < 500 ->
  skipped signals d = true.
Proof.
  intros Hs Hp. unfold skipped. rewrite Hs.
  destruct (Z.ltb_spec (Popularity d) 500); [reflexivity|lia].
Qed.

(** An item with positive popularity always has a positive composite. *)
Lemma popNorm_pos d : 0 < Popularity d -> (0 < popNorm d)%R.
Proof.
  intros Hp. unfold popNorm, maxPopularity. cbv zeta.
  destruct (Z.gtb_spec (Popularity d) 0) as [_|]; [|lia].
  assert (H1 : (1 < IZR (Popularity d) + 1.0)%R).
  { apply (IZR_lt 0) in Hp. lra. }
  assert (Hn : (0 < ln (IZR (Popularity d) + 1.0))%R).
  { rewrite <- ln_1. apply ln_increasing; lra. }
  assert (Hd : (0 < ln (3790.0 + 1.0))%R).
  { rewrite <- ln_1. apply ln_increasing; lra. }
  assert (Hq : (0 < ln (IZR (Popularity d) + 1.0) / ln (3790.0 + 1.0))%R).
  { apply Rdiv_lt_0_compat; assumption. }
  match goal with |- context [Rlt_dec ?x 0] => destruct (Rlt_dec x 0) end;
    match goal with |- context [Rlt_dec 1 ?x] => destruct (Rlt_dec 1 x) end;
    lra.
Qed.

Lemma composite_pos dims d : 0 < Popularity d -> (0 < composite dims d)%R.
Proof.
  intros Hp. unfold composite, alpha, beta.
  pose proof (similarity_range dims d).
  pose proof (popNorm_pos d Hp).
  pose proof (trendMultiplier_range d).
  apply Rmult_lt_0_compat; lra.
Qed.

(** A catalog of one item with positive popularity: the item wins. *)
Lemma selectBest_single d dims signals :
  skipped signals d = false -> 0 < Popularity d ->
  selectBest (NewEngine [d]) dims signals = mkMatch d (composite dims d).
Proof.
  intros Hskip Hp. pose proof (composite_pos dims d Hp) as Hpos.
  unfold selectBest, NewEngine. cbn [distros fold_left selectStep].
  rewrite Hskip. destruct (Rlt_dec 0.0 (composite dims d)); [reflexivity|lra].
Qed.

(** ** Rounding to the integer score *)

Lemma roundToInt_bounds (x : R) (hi : Z) :
  (0 <= x <= IZR hi)%R -> 0 <= roundToInt x <= hi.
Proof.
  intros [H0 Hhi]. unfold roundToInt, Int_part.
  destruct (Rle_dec 0 x) as [_|N]; [|contradiction].
  destruct (archimed (x + / 2)) as [Hup Hdown].
  split.
  - assert (0 < up (x + / 2)) by (apply lt_IZR; lra). lia.
  - assert (up (x + / 2) - 1 < hi + 1); [|lia].
    apply lt_IZR. rewrite minus_IZR, plus_IZR. lra.
Qed.

Lemma roundToInt_IZR (z : Z) : 0 <= z -> roundToInt (IZR z) = z.
Proof.
  intros Hz. unfold roundToInt, Int_part.
  destruct (Rle_dec 0 (IZR z)) as [_|N]; [|exfalso; apply N, (IZR_le 0 z Hz)].
  destruct (archimed (IZR z + / 2)) as [Hup Hdown].
  assert (z < up (IZR z + / 2)) by (apply lt_IZR; lra).
  assert (up (IZR z + / 2) < z + 2); [|lia].
  apply lt_IZR. rewrite plus_IZR. lra.
Qed.

(** ** Claims about the matcher and the normalizer *)

Section MatcherClaims.
Variable ToLower : string -> string.

(** C4. Each of the four axes produced by the dimension extractor lies in
    [0,10]; the similarity and popNorm of every candidate lie in [0,1]; the
    integer score returned by the normalizer, and by Score, lies in
    [0,100]. *)
Theorem C4_range_invariants (e : Engine) (signals : Signals)
        (dims : UserDimensions) (match_ : MatchResult) (d : Distro) :
  (0 <= RollingScore (calculateDimensions ToLower signals) <= 10 /\
   0 <= DIYScore (calculateDimensions ToLower signals) <= 10 /\
   0 <= PerformanceScore (calculateDimensions ToLower signals) <= 10 /\
   0 <= DevScore (calculateDimensions ToLower signals) <= 10) /\
  ((0 <= similarity dims d <= 1)%R /\ (0 <= popNorm d <= 1)%R) /\
  0 <= calculateFinalScore e match_ dims signals <= 100 /\
  0 <= profile.Score (Result_ (Score ToLower e signals)) <= 100.
Proof.
  split; [repeat split; apply clamp_range; lia|].
  split; [split; [apply similarity_range|apply popNorm_range]|].
  split; apply clamp_range; lia.
Qed.

(** C10. The match quality returned by the matcher, which is the
    confidence of the ScoreResult, lies in [0, 1.08]: every candidate's
    composite is at most 1.08 and the penalties only decrease it; the base
    score before the final clamp is at most round(1.08 * 100) = 108. *)
Theorem C10_match_quality_within_1_08 (e : Engine) (signals : Signals)
        (dims : UserDimensions) (d : Distro) :
  (0 <= composite dims d <= 1.08)%R /\
  (matchScore (findBestMatch e dims signals)
   <= matchScore (selectBest e dims signals))%R /\
  (0 <= matchScore (findBestMatch e dims signals) <= 1.08)%R /\
  (0 <= Confidence (Result_ (Score ToLower e signals)) <= 1.08)%R /\
  0 <= baseScore (findBestMatch e dims signals) <= 108 /\
  roundToInt (1.08 * 100) = 108.
Proof.
  pose proof (findBestMatch_range e dims signals) as Hr.
  split; [apply composite_range|].
  split; [apply findBestMatch_bounds|].
  split; [exact Hr|].
  split; [cbn [Score Result_ Confidence]; apply findBestMatch_range|].
  split.
  - apply roundToInt_bounds. lra.
  - replace (1.08 * 100)%R with (IZR 108) by lra. now apply roundToInt_IZR.
Qed.

(** C7. For a senior profile both penalties apply independently to the
    winner's composite: when the user devFocus axis is at least 8 with the
    winner's devFocus at most 7, and the user diy axis is at least 8 with the
    winner's easy at least 9, the returned match quality is
    composite * 0.85 * 0.90; each penalty applies alone when only its
    condition holds; a profile that is not senior gets neither. *)
Theorem C7_senior_penalties_stack (e : Engine) (dims : UserDimensions)
        (signals : Signals) :
  let winner := selectBest e dims signals in
  let result := findBestMatch e dims signals in
  let generic := 8 <= DevScore dims /\ DevFocus (distro winner) <= 7 in
  let tooEasy := 8 <= DIYScore dims /\ 9 <= Easy (distro winner) in
  distro result = distro winner /\
  (winner = zeroMatch \/
   In (distro winner) (distros e) /\
   matchScore winner = composite dims (distro winner)) /\
  (ExperienceLevel_ signals = ExpSenior -> generic -> tooEasy ->
   matchScore result = (matchScore winner * 0.85 * 0.90)%R) /\
  (ExperienceLevel_ signals = ExpSenior -> generic -> ~ tooEasy ->
   matchScore result = (matchScore winner * 0.85)%R) /\
  (ExperienceLevel_ signals = ExpSenior -> ~ generic -> tooEasy ->
   matchScore result = (matchScore winner * 0.90)%R) /\
  (ExperienceLevel_ signals = ExpSenior -> ~ generic -> ~ tooEasy ->
   result = winner) /\
  (ExperienceLevel_ signals <> ExpSenior -> result = winner).
Proof.
  intros winner result generic tooEasy.
  assert (Hgen : (DevScore dims >=? 8) && (DevFocus (distro winner) <=? 7) = true
                 <-> generic).
  { unfold generic. rewrite andb_true_iff, Z.geb_le, Z.leb_le. tauto. }
  assert (Heasy : (DIYScore dims >=? 8) && (Easy (distro winner) >=? 9) = true
                  <-> tooEasy).
  { unfold tooEasy. rewrite andb_true_iff, !Z.geb_le. tauto. }
  split; [apply findBestMatch_distro|].
  split.
  { destruct (selectBest_cases e dims signals) as [E|(d & Hin & _ & _ & E)];
      [now left|right].
    unfold winner. rewrite E. cbn [distro matchScore]. auto. }
  unfold result, findBestMatch. fold winner. cbv zeta.
  destruct (String.eqb_spec (ExperienceLevel_ signals) ExpSenior) as [Hs|Hs].
  - destruct ((DevScore dims >=? 8) && (DevFocus (distro winner) <=? 7)) eqn:G;
      cbn [scale distro matchScore];
      destruct ((DIYScore dims >=? 8) && (Easy (distro winner) >=? 9)) eqn:T;
      cbn [scale distro matchScore];
      repeat split; intros;
        try reflexivity; try contradiction;
        try (exfalso; match goal with
                      | H : ~ generic |- _ => apply H, Hgen; reflexivity
                      | H : ~ tooEasy |- _ => apply H, Heasy; reflexivity
                      end);
        try (exfalso;
             match goal with
             | H : generic |- _ => apply Hgen in H; discriminate
             | H : tooEasy |- _ => apply Heasy in H; discriminate
             end).
  - repeat split; intros; try contradiction; reflexivity.
Qed.

(** C9. The selection loop keeps a candidate only when its composite is
    strictly greater than the best so far, which starts at 0.0: when every
    eligible candidate has composite 0, or none is eligible, Score returns
    the zero-valued match, with empty BestDistroID and BestDistroName and
    confidence 0, even if eligible items exist. *)
Theorem C9_zero_composites_yield_zero_match (e : Engine) (signals : Signals) :
  (forall d, In d (distros e) -> skipped signals d = false ->
             composite (calculateDimensions ToLower signals) d = 0%R) ->
  selectBest e (calculateDimensions ToLower signals) signals = zeroMatch /\
  BestDistroID (Score ToLower e signals) = "" /\
  BestDistroName (Score ToLower e signals) = "" /\
  Confidence (Result_ (Score ToLower e signals)) = 0%R.
Proof.
  intros Hall.
  pose proof (selectBest_no_positive e _ signals Hall) as E.
  destruct (findBestMatch_zero e _ signals E) as [Hd Hm].
  cbn [Score BestDistroID BestDistroName Result_ Confidence].
  rewrite Hd, Hm. auto.
Qed.

(** C1 (amended). When the experience level is senior and every catalog
    item has popularity below 500, the selection loop skips every item and
    Score returns the zero-valued match: empty BestDistroID and
    BestDistroName and confidence 0. *)
Theorem C1_senior_filter_leaves_zero_match (e : Engine) (signals : Signals) :
  ExperienceLevel_ signals = ExpSenior ->
  (forall d, In d (distros e) -> Popularity d < 500) ->
  distro (findBestMatch e (calculateDimensions ToLower signals) signals)
  = zeroDistro /\
  BestDistroID (Score ToLower e signals) = "" /\
  BestDistroName (Score ToLower e signals) = "" /\
  Confidence (Result_ (Score ToLower e signals)) = 0%R.
Proof.
  intros Hs Hpop.
  assert (E : selectBest e (calculateDimensions ToLower signals) signals
              = zeroMatch).
  { apply selectBest_all_skipped. intros d Hin.
    apply senior_low_popularity_skipped; auto. }
  destruct (findBestMatch_zero e _ signals E) as [Hd Hm].
  cbn [Score BestDistroID BestDistroName Result_ Confidence].
  rewrite Hd, Hm. auto.
Qed.

End MatcherClaims.

(** ** Concrete runs *)

Lemma nicheCatalog_skipped d :
  In d nicheCatalog -> skipped kernelHacker d = true.
Proof. intros [<-|[<-|[]]]; reflexivity. Qed.

(** C1 (as stated) fails: for a senior profile and a catalog of Arch Linux
    and Gentoo, whose popularity is below 500, Score falls back to nothing
    and returns the zero-valued match. *)
Lemma C1_senior_niche_catalog_zero_match :
  ExperienceLevel_ kernelHacker = ExpSenior /\
  (forall d, In d nicheCatalog -> Popularity d < 500) /\
  BestDistroID (Score strings.asciiToLower (NewEngine nicheCatalog) kernelHacker) = "" /\
  BestDistroName (Score strings.asciiToLower (NewEngine nicheCatalog) kernelHacker) = "" /\
  Confidence (Result_ (Score strings.asciiToLower (NewEngine nicheCatalog) kernelHacker))
  = 0%R.
Proof.
  split; [reflexivity|].
  split; [intros d [<-|[<-|[]]]; reflexivity|].
  assert (E : selectBest (NewEngine nicheCatalog)
                (calculateDimensions strings.asciiToLower kernelHacker)
                kernelHacker = zeroMatch)
    by (apply selectBest_all_skipped; exact nicheCatalog_skipped).
  destruct (findBestMatch_zero _ _ _ E) as [Hd Hm].
  cbn [Score BestDistroID BestDistroName Result_ Confidence].
  rewrite Hd, Hm. auto.
Qed.

Lemma C1_senior_filter_witness :
  ExperienceLevel_ kernelHacker = ExpSenior /\
  (forall d, In d (distros (NewEngine nicheCatalog)) -> Popularity d < 500) /\
  BestDistroID (Score strings.asciiToLower (NewEngine nicheCatalog) kernelHacker) = "".
Proof.
  assert (Hs : ExperienceLevel_ kernelHacker = ExpSenior) by reflexivity.
  assert (Hp : forall d, In d (distros (NewEngine nicheCatalog)) ->
                         Popularity d < 500)
    by (intros d [<-|[<-|[]]]; reflexivity).
  split; [exact Hs|]. split; [exact Hp|].
  exact (proj1 (proj2 (C1_senior_filter_leaves_zero_match
                         strings.asciiToLower (NewEngine nicheCatalog)
                         kernelHacker Hs Hp))).
Defined.

Lemma remoteDistro_composite :
  composite (mkDims 5 5 3 5) remoteDistro = 0%R.
Proof.
  unfold composite, similarity, popNorm, trendMultiplier, distance, diff,
    alpha, beta, maxDist.
  cbn [RollingScore DIYScore PerformanceScore DevScore remoteDistro
       Rolling DIY Performance DevFocus Popularity Trend_].
  change (Int64.sub 5 25) with (-20).
  change (Int64.sub 5 5) with 0.
  change (Int64.sub 3 3) with 0.
  change (0 >? 0) with false. change (0 =? TrendUp) with false.
  change (0 =? TrendDown) with false. cbv zeta iota.
  replace (IZR (-20) ^ 2 + 0 ^ 2 + 0 ^ 2 + 0 ^ 2)%R with (20 * 20)%R by lra.
  rewrite sqrt_square by lra.
  destruct (Rlt_dec (20 / 20.0) 0); [lra|].
  destruct (Rlt_dec 1 (20 / 20.0)); lra.
Qed.

Lemma C9_zero_composites_witness :
  (forall d, In d (distros (NewEngine [remoteDistro])) ->
             skipped blankMid d = false ->
             composite (calculateDimensions strings.asciiToLower blankMid) d = 0%R) /\
  skipped blankMid remoteDistro = false /\
  BestDistroID (Score strings.asciiToLower (NewEngine [remoteDistro]) blankMid) = "" /\
  Confidence (Result_ (Score strings.asciiToLower (NewEngine [remoteDistro]) blankMid))
  = 0%R.
Proof.
  assert (H : forall d, In d (distros (NewEngine [remoteDistro])) ->
                        skipped blankMid d = false ->
                        composite (calculateDimensions strings.asciiToLower blankMid) d
                        = 0%R).
  { intros d [<-|[]] _. exact remoteDistro_composite. }
  split; [exact H|]. split; [reflexivity|].
  pose proof (C9_zero_composites_yield_zero_match
                strings.asciiToLower (NewEngine [remoteDistro]) blankMid H)
    as (_ & Hid & _ & Hc).
  split; [exact Hid|exact Hc].
Defined.

Lemma C7_senior_penalties_witness :
  let e := NewEngine [friendlyDistro] in
  let dims := mkDims 5 9 3 9 in
  distro (selectBest e dims seniorTinkerer) = friendlyDistro /\
  matchScore (findBestMatch e dims seniorTinkerer)
  = (composite dims friendlyDistro * 0.85 * 0.90)%R.
Proof.
  intros e dims.
  assert (W : selectBest e dims seniorTinkerer
              = mkMatch friendlyDistro (composite dims friendlyDistro))
    by (apply selectBest_single; reflexivity).
  split; [now rewrite W|].
  pose proof (C7_senior_penalties_stack e dims seniorTinkerer)
    as (_ & _ & Hboth & _).
  cbv zeta in Hboth. rewrite W in Hboth. cbn [distro matchScore] in Hboth.
  apply Hboth; [reflexivity|split; discriminate|split; discriminate].
Defined.

(** ** The shipped catalog can push the confidence above 1 *)

Lemma ln_3699_over_ln_3791 : (11 / 12 < ln 3699 / ln 3791)%R.
Proof.
  assert (L2 : (0 < ln 2)%R) by (rewrite <- ln_1; apply ln_increasing; lra).
  assert (Hlo : (INR 11 * ln 2 < ln 3699)%R).
  { rewrite <- ln_pow by lra. apply ln_increasing; simpl; lra. }
  assert (Hhi : (ln 3791 < INR 12 * ln 2)%R).
  { rewrite <- ln_pow by lra. apply ln_increasing; simpl; lra. }
  assert (E11 : INR 11 = 11%R) by (simpl; lra).
  assert (E12 : INR 12 = 12%R) by (simpl; lra).
  rewrite E11 in Hlo. rewrite E12 in Hhi.
  assert (Hd : (0 < ln 3791)%R) by (rewrite <- ln_1; apply ln_increasing; lra).
  replace (11 / 12)%R with (11 / 12 * ln 3791 / ln 3791)%R by (field; lra).
  apply Rmult_lt_compat_r; [apply Rinv_0_lt_compat; exact Hd|lra].
Qed.

Lemma cachyos_composite : (1 < composite (mkDims 10 6 10 9) cachyos)%R.
Proof.
  unfold composite, similarity, popNorm, trendMultiplier, distance, diff,
    alpha, beta, maxDist, maxPopularity.
  cbn [RollingScore DIYScore PerformanceScore DevScore cachyos
       Rolling DIY Performance DevFocus Popularity Trend_].
  change (Int64.sub 10 10) with 0.
  change (Int64.sub 6 6) with 0.
  change (Int64.sub 9 9) with 0.
  change (3698 >? 0) with true. change (TrendUp =? TrendUp) with true.
  cbv zeta iota.
  replace (0 ^ 2 + 0 ^ 2 + 0 ^ 2 + 0 ^ 2)%R with 0%R by lra.
  rewrite sqrt_0.
  replace (3698 + 1.0)%R with 3699%R by lra.
  replace (3790.0 + 1.0)%R with 3791%R by lra.
  pose proof ln_3699_over_ln_3791 as Hln.
  destruct (Rlt_dec (0 / 20.0) 0); [lra|].
  destruct (Rlt_dec 1 (0 / 20.0)); [lra|].
  destruct (Rlt_dec (ln 3699 / ln 3791) 0); [lra|].
  destruct (Rlt_dec 1 (ln 3699 / ln 3791)); lra.
Qed.

(** C2 fails on the shipped catalog: the profile below extracts to the
    vector (10, 6, 10, 9), the attributes of CachyOS, a rising item, and the
    returned match quality, stored as the confidence, exceeds 1. *)
Theorem C2_confidence_above_one_on_shipped_catalog :
  calculateDimensions strings.asciiToLower performanceFan = mkDims 10 6 10 9 /\
  (1 < matchScore (findBestMatch (NewEngine Top50Distros)
                     (calculateDimensions strings.asciiToLower performanceFan)
                     performanceFan))%R /\
  (1 < Confidence (Result_ (Score strings.asciiToLower (NewEngine Top50Distros)
                              performanceFan)))%R.
Proof.
  assert (D : calculateDimensions strings.asciiToLower performanceFan
              = mkDims 10 6 10 9) by (vm_compute; reflexivity).
  assert (M : (1 < matchScore (findBestMatch (NewEngine Top50Distros)
                                 (mkDims 10 6 10 9) performanceFan))%R).
  { assert (S : (composite (mkDims 10 6 10 9) cachyos
                 <= matchScore (selectBest (NewEngine Top50Distros)
                                  (mkDims 10 6 10 9) performanceFan))%R).
    { apply selectBest_dominates; [now left|reflexivity]. }
    pose proof cachyos_composite.
    assert (F : findBestMatch (NewEngine Top50Distros) (mkDims 10 6 10 9)
                  performanceFan
                = selectBest (NewEngine Top50Distros) (mkDims 10 6 10 9)
                    performanceFan) by reflexivity.
    rewrite F. lra. }
  split; [exact D|].
  cbn [Score Result_ Confidence]. rewrite D. split; exact M.
Qed.

End scoreFacts.

(** * Further properties of the engine *)

Module engineFacts.
Import Int64 Int64Facts profile score catalog scoreFacts.

(** ** Vocabulary *)

(** The candidate passes the [continue] guard of the selection loop. *)
Definition eligible (signals : Signals) (d : Distro) : Prop :=
  skipped signals d = false.

(** [w], found at the split [before ++ w :: after] of the catalog, is the
    first eligible item of greatest composite. *)
Definition firstMaximum (dims : UserDimensions) (signals : Signals)
           (before : list Distro) (w : Distro) (after : list Distro) : Prop :=
  eligible signals w /\
  (0 < composite dims w)%R /\
  (forall d, In d before -> eligible signals d ->
             (composite dims d < composite dims w)%R) /\
  (forall d, In d after -> eligible signals d ->
             (composite dims d <= composite dims w)%R).

(** The five stages of [calculateFinalScore] after [baseScore], each one a
    function of the running [adjustment]. *)
Definition experienceAdjustment (signals : Signals) (distro : Distro) : Z :=
  let adjustment := 0 in
  if String.eqb (ExperienceLevel_ signals) ExpJunior then
    let adjustment :=
      if Easy distro >=? 8 then add adjustment 5 else adjustment in
    let adjustment :=
      if DIY distro >=? 9 then sub adjustment 10 else adjustment in
    adjustment
  else if String.eqb (ExperienceLevel_ signals) ExpSenior then
    let adjustment :=
      if DevFocus distro >=? 9 then add adjustment 5 else adjustment in
    let adjustment :=
      if DIY distro >=? 7 then add adjustment 3 else adjustment in
    let adjustment :=
      if (Easy distro >=? 10) && (DIY distro <=? 2)
      then sub adjustment 3 else adjustment in
    adjustment
  else adjustment.

Definition coherenceAdjustment (dims : UserDimensions) (distro : Distro)
           (adjustment : Z) : Z :=
  let adjustment :=
    if (DevScore dims >=? 8) && (DevFocus distro <=? 5)
    then sub adjustment 5 else adjustment in
  if (PerformanceScore dims >=? 8) && (Performance distro <=? 5)
  then sub adjustment 5 else adjustment.

Definition perfectMatches (dims : UserDimensions) (distro : Distro) : Z :=
  countIf (abs (sub (DevScore dims) (DevFocus distro)) <=? 1)
    (countIf (abs (sub (PerformanceScore dims) (Performance distro)) <=? 1)
       (countIf (abs (sub (DIYScore dims) (DIY distro)) <=? 1)
          (countIf (abs (sub (RollingScore dims) (Rolling distro)) <=? 1) 0))).

Definition perfectBonus (perfectMatches adjustment : Z) : Z :=
  if perfectMatches >=? 3 then add adjustment 8
  else if perfectMatches =? 2 then add adjustment 4
  else adjustment.

Definition popularityAdjustment (distro : Distro) (adjustment : Z) : Z :=
  let adjustment :=
    if Popularity distro <? 150 then sub adjustment 3 else adjustment in
  if (Trend_ distro =? TrendDown) && (Popularity distro <? 300)
  then sub adjustment 5 else adjustment.

(** The whole [adjustment] of [calculateFinalScore]. *)
Definition totalAdjustment (dims : UserDimensions) (signals : Signals)
           (distro : Distro) : Z :=
  popularityAdjustment distro
    (perfectBonus (perfectMatches dims distro)
       (coherenceAdjustment dims distro (experienceAdjustment signals distro))).

(** ** The selection loop picks the first maximum *)

Lemma calculateFinalScore_stages e match_ dims signals :
  calculateFinalScore e match_ dims signals
  = clamp (add (baseScore match_) (totalAdjustment dims signals (distro match_)))
          0 100.
Proof. reflexivity. Qed.

Lemma selectStep_unfold dims signals best bestScore x :
  selectStep dims signals (best, bestScore) x
  = if skipped signals x then (best, bestScore)
    else if Rlt_dec bestScore (composite dims x)
         then (mkMatch x (composite dims x), composite dims x)
         else (best, bestScore).
Proof. reflexivity. Qed.

Lemma fold_first_maximum dims signals :
  forall l,
    let st := fold_left (selectStep dims signals) l (zeroMatch, 0.0%R) in
    (st = (zeroMatch, 0.0%R) /\
     forall d, In d l -> eligible signals d -> (composite dims d <= 0)%R) \/
    exists before w after,
      l = (before ++ w :: after)%list /\
      st = (mkMatch w (composite dims w), composite dims w) /\
      firstMaximum dims signals before w after.
Proof.
  induction l as [|x l IH] using rev_ind; intros st.
  - left. split; [reflexivity|intros d []].
  - subst st. rewrite fold_left_app. cbn [fold_left].
    destruct IH as [[E Hle]|(before & w & after & El & E & Hel & Hpos & Hb & Ha)];
      rewrite E, selectStep_unfold; destruct (skipped signals x) eqn:Hx.
    + left. split; [reflexivity|].
      intros d Hin Hd. apply in_app_or in Hin as [Hin|[<-|[]]];
        [now apply Hle|unfold eligible in Hd; congruence].
    + destruct (Rlt_dec 0.0 (composite dims x)) as [Hlt|Hge].
      * right. exists l, x, []. repeat split; try assumption; try lra.
        -- intros d Hin Hd. specialize (Hle d Hin Hd). lra.
        -- intros d [].
      * left. split; [reflexivity|].
        intros d Hin Hd. apply in_app_or in Hin as [Hin|[<-|[]]];
          [now apply Hle|lra].
    + right. exists before, w, (after ++ [x])%list.
      split; [rewrite El, <- app_assoc; reflexivity|].
      split; [reflexivity|]. repeat split; try assumption.
      intros d Hin Hd. apply in_app_or in Hin as [Hin|[<-|[]]];
        [now apply Ha|unfold eligible in Hd; congruence].
    + destruct (Rlt_dec (composite dims w) (composite dims x)) as [Hlt|Hge].
      * right. exists l, x, []. repeat split; try assumption; try lra.
        -- intros d Hin Hd. rewrite El in Hin.
           apply in_app_or in Hin as [Hin|[<-|Hin]].
           ++ specialize (Hb d Hin Hd). lra.
           ++ exact Hlt.
           ++ specialize (Ha d Hin Hd). lra.
        -- intros d [].
      * right. exists before, w, (after ++ [x])%list.
        split; [rewrite El, <- app_assoc; reflexivity|].
        split; [reflexivity|]. repeat split; try assumption.
        intros d Hin Hd. apply in_app_or in Hin as [Hin|[<-|[]]];
          [now apply Ha|lra].
Qed.

(** X1. The matcher selects the eligible catalog item of greatest composite and,
    among equal composites, the one that comes first in the catalog; it
    selects nothing exactly when no eligible item has a positive composite. *)
Theorem selectBest_first_maximum (e : Engine) (dims : UserDimensions)
        (signals : Signals) :
  (selectBest e dims signals = zeroMatch /\
   forall d, In d (distros e) -> eligible signals d ->
             composite dims d = 0%R) \/
  exists before w after,
    distros e = (before ++ w :: after)%list /\
    selectBest e dims signals = mkMatch w (composite dims w) /\
    distro (findBestMatch e dims signals) = w /\
    firstMaximum dims signals before w after.
Proof.
  destruct (fold_first_maximum dims signals (distros e))
    as [[E Hle]|(before & w & after & El & E & HM)].
  - left. unfold selectBest. rewrite E. split; [reflexivity|].
    intros d Hin Hd. pose proof (composite_range dims d).
    specialize (Hle d Hin Hd). lra.
  - right. exists before, w, after.
    assert (W : selectBest e dims signals = mkMatch w (composite dims w))
      by (unfold selectBest; now rewrite E).
    repeat split; try assumption; try apply HM.
    now rewrite findBestMatch_distro, W.
Qed.

Lemma eligible_popular signals d : 500 <= Popularity d -> eligible signals d.
Proof.
  intros H. unfold eligible, skipped.
  destruct (Z.ltb_spec (Popularity d) 500); [lia|apply andb_false_r].
Qed.

Lemma eligible_senior signals d :
  ExperienceLevel_ signals = ExpSenior -> eligible signals d ->
  500 <= Popularity d.
Proof.
  unfold eligible, skipped. intros -> H. cbn in H.
  destruct (Z.ltb_spec (Popularity d) 500); [discriminate|assumption].
Qed.

(** X2. A catalog holding at least one item of popularity 500 or more always
    yields a recommendation: whatever the signals, Score names an eligible
    catalog item and reports a positive confidence. *)
Theorem Score_recommends_catalog_item (ToLower : string -> string)
        (e : Engine) (signals : Signals) :
  (exists d, In d (distros e) /\ 500 <= Popularity d) ->
  exists w, In w (distros e) /\ eligible signals w /\
            BestDistroID (Score ToLower e signals) = ID w /\
            BestDistroName (Score ToLower e signals) = Name w /\
            (0 < Confidence (Result_ (Score ToLower e signals)))%R.
Proof.
  intros (d & Hin & Hpop).
  set (dims := calculateDimensions ToLower signals).
  assert (Hd : (0 < matchScore (selectBest e dims signals))%R).
  { pose proof (composite_pos dims d ltac:(lia)).
    pose proof (selectBest_dominates e dims signals d Hin
                  (eligible_popular signals d Hpop)). lra. }
  destruct (selectBest_cases e dims signals) as [E|(w & Hw & Hel & Hpos & E)].
  - rewrite E in Hd. cbn in Hd. lra.
  - exists w. cbn [Score BestDistroID BestDistroName Result_ Confidence].
    fold dims. rewrite findBestMatch_distro, E. cbn [distro].
    repeat split; try assumption.
    pose proof (findBestMatch_bounds e dims signals) as B.
    rewrite E in B. cbn [matchScore] in B. lra.
Qed.

(** X3. A senior profile is never recommended a catalog item of popularity
    below 500: the matcher returns the zero value or an item at or above
    the threshold. *)
Theorem senior_recommendation_is_popular (e : Engine) (dims : UserDimensions)
        (signals : Signals) :
  ExperienceLevel_ signals = ExpSenior ->
  findBestMatch e dims signals = zeroMatch \/
  (In (distro (findBestMatch e dims signals)) (distros e) /\
   500 <= Popularity (distro (findBestMatch e dims signals))).
Proof.
  intros Hs.
  destruct (selectBest_cases e dims signals) as [E|(w & Hw & Hel & Hpos & E)].
  - left. destruct (findBestMatch_zero e dims signals E) as [Hd Hm].
    destruct (findBestMatch e dims signals) as [d m]. cbn in Hd, Hm.
    now subst.
  - right. rewrite findBestMatch_distro, E. cbn [distro].
    split; [assumption|now apply (eligible_senior signals)].
Qed.

(** ** The adjustment of the normalizer *)

Lemma add_small a b :
  - 2 ^ 61 <= a <= 2 ^ 61 -> - 2 ^ 61 <= b <= 2 ^ 61 -> add a b = a + b.
Proof.
  intros Ha Hb. unfold add. apply wrap_id.
  unfold in_range, min_int, max_int. lia.
Qed.

Lemma sub_small a b :
  - 2 ^ 61 <= a <= 2 ^ 61 -> - 2 ^ 61 <= b <= 2 ^ 61 -> sub a b = a - b.
Proof.
  intros Ha Hb. unfold sub. apply wrap_id.
  unfold in_range, min_int, max_int. lia.
Qed.

Ltac small_arith :=
  repeat match goal with
         | |- context [add ?a ?b] => rewrite (add_small a b) by lia
         | |- context [sub ?a ?b] => rewrite (sub_small a b) by lia
         end.

Ltac eval_arith :=
  repeat match goal with
         | |- context [add ?a ?b] =>
             let v := eval vm_compute in (add a b) in change (add a b) with v
         | |- context [sub ?a ?b] =>
             let v := eval vm_compute in (sub a b) in change (sub a b) with v
         end.

Lemma experienceAdjustment_range signals d :
  let a := experienceAdjustment signals d in
  -10 <= a <= 8 /\
  (ExperienceLevel_ signals = ExpJunior -> a <= 5) /\
  (ExperienceLevel_ signals = ExpSenior -> -3 <= a) /\
  (ExperienceLevel_ signals <> ExpJunior ->
   ExperienceLevel_ signals <> ExpSenior -> a = 0).
Proof.
  unfold experienceAdjustment.
  destruct (String.eqb_spec (ExperienceLevel_ signals) ExpJunior) as [J|J].
  - destruct (Easy d >=? 8), (DIY d >=? 9); cbv zeta; eval_arith;
      (split; [lia|]); (split; [intros; lia|]);
      (split; [rewrite J; discriminate|congruence]).
  - destruct (String.eqb_spec (ExperienceLevel_ signals) ExpSenior) as [S|S].
    + destruct (DevFocus d >=? 9), (DIY d >=? 7),
        ((Easy d >=? 10) && (DIY d <=? 2)); cbv zeta; eval_arith;
        (split; [lia|]); (split; [congruence|]);
        (split; [intros; lia|congruence]).
    + cbv zeta. split; [lia|]. split; [congruence|].
      split; [congruence|reflexivity].
Qed.

Lemma coherenceAdjustment_range dims d a :
  -1000 <= a <= 1000 ->
  a - 10 <= coherenceAdjustment dims d a <= a.
Proof.
  intros Ha. unfold coherenceAdjustment.
  destruct ((DevScore dims >=? 8) && (DevFocus d <=? 5)),
    ((PerformanceScore dims >=? 8) && (Performance d <=? 5));
    cbv zeta; small_arith; lia.
Qed.

Lemma countIf_range b n : 0 <= n <= 10 -> n <= countIf b n <= n + 1.
Proof. intros H. unfold countIf. destruct b; small_arith; lia. Qed.

Lemma perfectMatches_range dims d : 0 <= perfectMatches dims d <= 4.
Proof.
  unfold perfectMatches.
  repeat match goal with
         | |- context [countIf ?b ?n] =>
             let H := fresh "H" in
             assert (H : n <= countIf b n <= n + 1)
               by (apply countIf_range; lia);
             generalize dependent (countIf b n); intros
         end.
  lia.
Qed.

Lemma perfectBonus_range p a :
  -1000 <= a <= 1000 -> a <= perfectBonus p a <= a + 8.
Proof.
  intros Ha. unfold perfectBonus.
  destruct (p >=? 3); [small_arith; lia|].
  destruct (p =? 2); small_arith; lia.
Qed.

Lemma popularityAdjustment_range d a :
  -1000 <= a <= 1000 -> a - 8 <= popularityAdjustment d a <= a.
Proof.
  intros Ha. unfold popularityAdjustment.
  destruct (Popularity d <? 150),
    ((Trend_ d =? TrendDown) && (Popularity d <? 300));
    cbv zeta; small_arith; lia.
Qed.

Lemma baseScore_findBestMatch e dims signals :
  0 <= baseScore (findBestMatch e dims signals) <= 108.
Proof.
  apply roundToInt_bounds.
  pose proof (findBestMatch_range e dims signals). lra.
Qed.

(** X4. The final score is the base score plus an adjustment, clamped to
    [0,100], where the adjustment lies in [-28,16] whatever the inputs: in
    [-28,13] for junior, [-21,16] for senior and [-18,8] for every other
    experience level. *)
Theorem Score_adjustment_bounds (ToLower : string -> string)
        (e : Engine) (signals : Signals) :
  let dims := calculateDimensions ToLower signals in
  let best := findBestMatch e dims signals in
  let adjustment := totalAdjustment dims signals (distro best) in
  profile.Score (Result_ (Score ToLower e signals))
  = clamp (baseScore best + adjustment) 0 100 /\
  -28 <= adjustment <= 16 /\
  (ExperienceLevel_ signals = ExpJunior -> adjustment <= 13) /\
  (ExperienceLevel_ signals = ExpSenior -> -21 <= adjustment) /\
  (ExperienceLevel_ signals <> ExpJunior ->
   ExperienceLevel_ signals <> ExpSenior -> -18 <= adjustment <= 8).
Proof.
  intros dims best adjustment.
  pose proof (experienceAdjustment_range signals (distro best))
    as (E0 & EJ & ES & EM). cbv zeta in E0, EJ, ES, EM.
  set (a0 := experienceAdjustment signals (distro best)) in *.
  assert (C : a0 - 10 <= coherenceAdjustment dims (distro best) a0 <= a0)
    by (apply coherenceAdjustment_range; lia).
  set (a1 := coherenceAdjustment dims (distro best) a0) in *.
  assert (P : a1 <= perfectBonus (perfectMatches dims (distro best)) a1 <= a1 + 8)
    by (apply perfectBonus_range; lia).
  set (a2 := perfectBonus (perfectMatches dims (distro best)) a1) in *.
  assert (Q : a2 - 8 <= popularityAdjustment (distro best) a2 <= a2)
    by (apply popularityAdjustment_range; lia).
  assert (EA : adjustment = popularityAdjustment (distro best) a2) by reflexivity.
  rewrite <- EA in Q.
  pose proof (baseScore_findBestMatch e dims signals) as B. fold best in B.
  split.
  - cbn [Score Result_ profile.Score]. fold dims. fold best.
    rewrite calculateFinalScore_stages. fold adjustment.
    now rewrite add_small by lia.
  - split; [lia|]. split; [intros H; specialize (EJ H); lia|].
    split; [intros H; specialize (ES H); lia|].
    intros H1 H2. specialize (EM H1 H2). lia.
Qed.

(** ** The outcome when nothing is selected *)

Lemma baseScore_zeroMatch : baseScore zeroMatch = 0.
Proof.
  unfold baseScore. cbn [matchScore zeroMatch].
  replace (0 * 100.0)%R with (IZR 0) by lra. now apply roundToInt_IZR.
Qed.

Lemma totalAdjustment_zeroDistro dims signals :
  -13 <= totalAdjustment dims signals zeroDistro <= 5.
Proof.
  unfold totalAdjustment.
  assert (E : experienceAdjustment signals zeroDistro = 0).
  { unfold experienceAdjustment.
    destruct (String.eqb _ ExpJunior); [reflexivity|].
    destruct (String.eqb _ ExpSenior); reflexivity. }
  rewrite E.
  pose proof (coherenceAdjustment_range dims zeroDistro 0 ltac:(lia)) as C.
  set (a1 := coherenceAdjustment dims zeroDistro 0) in *.
  assert (P : a1 <= perfectBonus (perfectMatches dims zeroDistro) a1 <= a1 + 8)
    by (apply perfectBonus_range; lia).
  set (a2 := perfectBonus (perfectMatches dims zeroDistro) a1) in *.
  assert (Q : popularityAdjustment zeroDistro a2 = a2 - 3).
  { unfold popularityAdjustment. cbn. now rewrite sub_small by lia. }
  lia.
Qed.

Lemma buildExplanation_zeroMatch e dims score :
  buildExplanation e zeroMatch dims score
  = "Basado en tu perfil, recomendamos . ".
Proof.
  unfold buildExplanation.
  cbn [distro zeroMatch zeroDistro Name Rolling DIY Performance Trend_].
  change (0 >=? 7) with false. change (0 >=? 8) with false.
  change (0 =? TrendUp) with false.
  rewrite !andb_false_r. reflexivity.
Qed.

(** X5. When no eligible item has a positive composite (an empty catalog, or a
    senior profile against items all below popularity 500), Score still
    answers: the score is between 0 and 5, the category is not_fit, and the
    engine's explanation recommends an empty name. *)
Theorem Score_without_candidate (ToLower : string -> string)
        (e : Engine) (signals : Signals) :
  (forall d, In d (distros e) -> eligible signals d ->
             composite (calculateDimensions ToLower signals) d = 0%R) ->
  0 <= profile.Score (Result_ (Score ToLower e signals)) <= 5 /\
  Category (Result_ (Score ToLower e signals)) = FitNone /\
  Explanation (Result_ (Score ToLower e signals))
  = "Basado en tu perfil, recomendamos . ".
Proof.
  intros Hall.
  set (dims := calculateDimensions ToLower signals) in *.
  pose proof (selectBest_no_positive e dims signals Hall) as E.
  destruct (findBestMatch_zero e dims signals E) as [Hd Hm].
  assert (Z0 : findBestMatch e dims signals = zeroMatch).
  { destruct (findBestMatch e dims signals) as [d m]. cbn in Hd, Hm.
    now subst. }
  cbn [Score Result_ profile.Score Category Explanation]. fold dims.
  rewrite Z0, calculateFinalScore_stages, baseScore_zeroMatch.
  cbn [distro zeroMatch].
  pose proof (totalAdjustment_zeroDistro dims signals) as A.
  rewrite add_small by lia.
  set (a := totalAdjustment dims signals zeroDistro) in *.
  assert (S : 0 <= clamp (0 + a) 0 100 <= 5).
  { unfold clamp. destruct (Z.ltb_spec (0 + a) 0); [lia|].
    destruct (Z.gtb_spec (0 + a) 100); lia. }
  split; [exact S|]. split; [|apply buildExplanation_zeroMatch].
  unfold determineCategory.
  destruct (Z.geb_spec (clamp (0 + a) 0 100) 75); [lia|].
  destruct (Z.geb_spec (clamp (0 + a) 0 100) 50); [lia|reflexivity].
Qed.

Lemma Score_without_candidate_witness :
  (forall d, In d (distros (NewEngine [])) -> eligible kernelHacker d ->
             composite (calculateDimensions strings.asciiToLower kernelHacker) d
             = 0%R) /\
  Category (Result_ (Score strings.asciiToLower (NewEngine []) kernelHacker))
  = FitNone.
Proof.
  assert (H : forall d, In d (distros (NewEngine [])) ->
                        eligible kernelHacker d ->
                        composite (calculateDimensions strings.asciiToLower
                                     kernelHacker) d = 0%R)
    by (intros d []).
  split; [exact H|].
  exact (proj1 (proj2 (Score_without_candidate strings.asciiToLower
                         (NewEngine []) kernelHacker H))).
Defined.

Lemma senior_recommendation_is_popular_witness :
  ExperienceLevel_ kernelHacker = ExpSenior /\
  (findBestMatch (NewEngine Top50Distros) (mkDims 8 10 5 9) kernelHacker
   = zeroMatch \/
   (In (distro (findBestMatch (NewEngine Top50Distros) (mkDims 8 10 5 9)
                  kernelHacker)) (distros (NewEngine Top50Distros)) /\
    500 <= Popularity (distro (findBestMatch (NewEngine Top50Distros)
                                 (mkDims 8 10 5 9) kernelHacker)))).
Proof.
  assert (H : ExperienceLevel_ kernelHacker = ExpSenior) by reflexivity.
  split; [exact H|].
  exact (senior_recommendation_is_popular (NewEngine Top50Distros)
           (mkDims 8 10 5 9) kernelHacker H).
Defined.

Lemma Score_recommends_catalog_item_witness :
  (exists d, In d (distros (NewEngine Top50Distros)) /\ 500 <= Popularity d) /\
  exists w, In w Top50Distros /\
            BestDistroID (Score strings.asciiToLower (NewEngine Top50Distros)
                            kernelHacker) = ID w.
Proof.
  assert (H : exists d, In d (distros (NewEngine Top50Distros))
                        /\ 500 <= Popularity d).
  { exists cachyos. split; [now left|discriminate]. }
  split; [exact H|].
  destruct (Score_recommends_catalog_item strings.asciiToLower
              (NewEngine Top50Distros) kernelHacker H)
    as (w & Hin & _ & Hid & _).
  exists w. split; [exact Hin|exact Hid].
Defined.

(** ** An exact match of the four axes *)

Lemma sub_diag x : sub x x = 0.
Proof. unfold sub. rewrite Z.sub_diag. reflexivity. Qed.

Lemma similarity_exact dims d :
  RollingScore dims = Rolling d -> DIYScore dims = DIY d ->
  PerformanceScore dims = Performance d -> DevScore dims = DevFocus d ->
  similarity dims d = 1%R.
Proof.
  intros H1 H2 H3 H4. unfold similarity, distance, diff, maxDist.
  rewrite H1, H2, H3, H4, !sub_diag.
  replace (0 ^ 2 + 0 ^ 2 + 0 ^ 2 + 0 ^ 2)%R with 0%R by lra.
  rewrite sqrt_0. cbv zeta.
  destruct (Rlt_dec (0 / 20.0) 0); [lra|].
  destruct (Rlt_dec 1 (0 / 20.0)); lra.
Qed.

(** X6. When the user vector equals the item's attributes on all four axes the
    similarity is 1 and, for a profile that is neither junior nor senior and
    an item that is no popularity risk, the adjustment is exactly the
    perfect-match bonus +8. *)
Theorem exact_match_bonus (e : Engine) (dims : UserDimensions)
        (signals : Signals) (d : Distro) (quality : R) :
  RollingScore dims = Rolling d -> DIYScore dims = DIY d ->
  PerformanceScore dims = Performance d -> DevScore dims = DevFocus d ->
  ExperienceLevel_ signals <> ExpJunior ->
  ExperienceLevel_ signals <> ExpSenior ->
  300 <= Popularity d ->
  similarity dims d = 1%R /\
  totalAdjustment dims signals d = 8 /\
  calculateFinalScore e (mkMatch d quality) dims signals
  = clamp (add (roundToInt (quality * 100.0)) 8) 0 100.
Proof.
  intros H1 H2 H3 H4 HJ HS HP.
  assert (A : totalAdjustment dims signals d = 8).
  { unfold totalAdjustment.
    destruct (experienceAdjustment_range signals d) as (_ & _ & _ & E).
    rewrite (E HJ HS).
    assert (C : coherenceAdjustment dims d 0 = 0).
    { unfold coherenceAdjustment. rewrite H3, H4.
      destruct (Z.geb_spec (DevFocus d) 8), (Z.leb_spec (DevFocus d) 5),
        (Z.geb_spec (Performance d) 8), (Z.leb_spec (Performance d) 5);
        cbn; try reflexivity; lia. }
    rewrite C.
    assert (M : perfectMatches dims d = 4).
    { unfold perfectMatches. rewrite H1, H2, H3, H4, !sub_diag. reflexivity. }
    rewrite M. change (perfectBonus 4 0) with 8.
    unfold popularityAdjustment.
    destruct (Z.ltb_spec (Popularity d) 150); [lia|].
    destruct (Z.ltb_spec (Popularity d) 300); [lia|].
    now rewrite andb_false_r. }
  split; [now apply similarity_exact|]. split; [exact A|].
  rewrite calculateFinalScore_stages. cbn [distro]. now rewrite A.
Qed.

Lemma exact_match_bonus_witness :
  let dims := mkDims 10 6 10 9 in
  similarity dims cachyos = 1%R /\
  totalAdjustment dims performanceFan cachyos = 8.
Proof.
  intros dims.
  destruct (exact_match_bonus (NewEngine Top50Distros) dims performanceFan
              cachyos 1%R) as (S & A & _);
    try reflexivity; try discriminate.
  split; [exact S|exact A].
Defined.

End engineFacts.

(** * The dimension extractor in closed form *)

Module extractorFacts.
Import Int64 Int64Facts profile score scoreFacts engineFacts.

(** ** Vocabulary *)

Definition member (table : list string) (x : string) : bool :=
  existsb (String.eqb x) table.

(** Entries of [l] that belong to [table], with multiplicity. *)
Definition countIn (table l : list string) : Z :=
  Z.of_nat (List.length (filter (member table) l)).

(** Pairs of an entry of [l] and a pattern of [table] that satisfy [cond]. *)
Definition matchPairs (cond : string -> string -> bool)
           (table l : list string) : Z :=
  fold_right (fun x n => hits (cond x) table + n) 0 l.

(** Pairs of an entry of [l] and a pattern of [table] such that the
    lower-cased entry contains the pattern. *)
Definition substringPairs (ToLower : string -> string)
           (table l : list string) : Z :=
  matchPairs (fun x pattern => strings.Contains (ToLower x) pattern) table l.

Fixpoint distinctb (l : list string) : bool :=
  match l with
  | [] => true
  | x :: l' => negb (member l' x) && distinctb l'
  end.

(** The bound on list lengths under which no addition of the extractor
    wraps around. *)
Definition maxEntries : Z := 2 ^ 32.

Definition seniorBonus (signals : Signals) : Z :=
  if String.eqb (ExperienceLevel_ signals) ExpSenior then 1 else 0.

Definition scriptingBonus (techStack : list string) : Z :=
  if scriptingOccurrences techStack >=? 2 then 2 else 0.

(** ** Loops that add without wrapping *)

Lemma hits_range cond table :
  0 <= hits cond table <= Z.of_nat (List.length table).
Proof.
  unfold hits. pose proof (filter_length_le cond table). lia.
Qed.

Lemma bump_exact d n score :
  - 2 ^ 62 <= score + d * n <= 2 ^ 62 -> bump d n score = score + d * n.
Proof.
  intros H. unfold bump. destruct (Z.eqb_spec n 0) as [->|_]; [lia|].
  apply wrap_id. unfold in_range, min_int, max_int. lia.
Qed.

Section AdditiveLoop.
Variables (step : Z -> string -> Z) (g : string -> Z) (K : Z).
Hypothesis K_nonneg : 0 <= K.
Hypothesis g_bound : forall x, Z.abs (g x) <= K.
Hypothesis step_exact :
  forall acc x, Z.abs acc + K <= 2 ^ 62 -> step acc x = acc + g x.

Lemma additive_loop_exact :
  forall l acc,
    Z.abs acc + K * Z.of_nat (List.length l) <= 2 ^ 62 ->
    fold_left step l acc = acc + fold_right (fun x n => g x + n) 0 l.
Proof.
  induction l as [|x l IH]; intros acc H; cbn [fold_left fold_right].
  - lia.
  - cbn [List.length] in H. rewrite Nat2Z.inj_succ, Z.mul_succ_r in H.
    pose proof (g_bound x).
    assert (0 <= K * Z.of_nat (List.length l)) by (apply Z.mul_nonneg_nonneg; lia).
    rewrite step_exact by lia. rewrite IH by lia. lia.
Qed.

End AdditiveLoop.

Lemma scan_exact cond d table acc :
  Z.abs acc + Z.abs d * Z.of_nat (List.length table) <= 2 ^ 62 ->
  scanTable cond d table acc = acc + d * hits cond table.
Proof.
  intros H. rewrite scanTable_bump. apply bump_exact.
  pose proof (hits_range cond table) as R.
  assert (Z.abs (d * hits cond table)
          <= Z.abs d * Z.of_nat (List.length table)).
  { rewrite Z.abs_mul. apply Z.mul_le_mono_nonneg; lia. }
  lia.
Qed.

Lemma scan_loop_exact (cond : string -> string -> bool) d table l acc :
  Z.abs acc
  + Z.abs d * Z.of_nat (List.length table) * Z.of_nat (List.length l)
  <= 2 ^ 62 ->
  fold_left (fun score x => scanTable (cond x) d table score) l acc
  = acc + d * matchPairs cond table l.
Proof.
  intros H.
  rewrite (additive_loop_exact
             (fun score x => scanTable (cond x) d table score)
             (fun x => d * hits (cond x) table)
             (Z.abs d * Z.of_nat (List.length table))).
  - f_equal. unfold matchPairs. induction l as [|x l IH]; cbn [fold_right].
    + lia.
    + cbn [List.length] in H. rewrite IH; nia.
  - apply Z.mul_nonneg_nonneg; lia.
  - intros x. pose proof (hits_range (cond x) table).
    rewrite Z.abs_mul. apply Z.mul_le_mono_nonneg; lia.
  - intros a x Ha. now apply scan_exact.
  - exact H.
Qed.

Lemma matchPairs_range cond table l :
  0 <= matchPairs cond table l
  <= Z.of_nat (List.length table) * Z.of_nat (List.length l).
Proof.
  unfold matchPairs. induction l as [|x l IH]; cbn [fold_right List.length].
  - lia.
  - pose proof (hits_range (cond x) table). nia.
Qed.

(** ** Exact-match tables without repetition *)

Lemma distinctb_hits table x :
  distinctb table = true ->
  hits (String.eqb x) table = if member table x then 1 else 0.
Proof.
  unfold hits, member.
  induction table as [|p table IH]; intros D; cbn in *; [reflexivity|].
  apply andb_true_iff in D as [Dp D]. specialize (IH D).
  destruct (String.eqb_spec x p) as [->|N]; cbn [orb List.length].
  - apply negb_true_iff in Dp. unfold member in Dp. rewrite Dp in *.
    rewrite Nat2Z.inj_succ, IH. reflexivity.
  - exact IH.
Qed.

Lemma matchPairs_countIn table l :
  distinctb table = true ->
  matchPairs String.eqb table l = countIn table l.
Proof.
  intros D. unfold matchPairs, countIn.
  induction l as [|x l IH]; cbn [fold_right filter]; [reflexivity|].
  rewrite IH, (distinctb_hits table x D).
  destruct (member table x); cbn [List.length]; lia.
Qed.

Lemma countIn_range table l :
  0 <= countIn table l <= Z.of_nat (List.length l).
Proof.
  unfold countIn. pose proof (filter_length_le (member table) l). lia.
Qed.

Lemma prefix_refl s : String.prefix s s = true.
Proof.
  induction s as [|c s IH]; cbn; [reflexivity|].
  destruct (ascii_dec c c); [exact IH|contradiction].
Qed.

(** The equality test of [calculateDevFocus] is subsumed by the substring
    test. *)
Lemma eqb_or_Contains s pattern :
  String.eqb s pattern || strings.Contains s pattern
  = strings.Contains s pattern.
Proof.
  destruct (String.eqb_spec s pattern) as [->|_]; [|reflexivity].
  cbn [orb]. destruct pattern; cbn; [reflexivity|].
  destruct (ascii_dec a a); [|contradiction]. now rewrite prefix_refl.
Qed.

Lemma matchPairs_ext cond cond' table l :
  (forall x p, cond x p = cond' x p) ->
  matchPairs cond table l = matchPairs cond' table l.
Proof.
  intros H. unfold matchPairs, hits.
  induction l as [|x l IH]; cbn [fold_right]; [reflexivity|].
  rewrite IH. do 3 f_equal. apply filter_ext. intros p. apply H.
Qed.

Ltac table_size :=
  repeat match goal with
         | |- context [Z.abs ?d * Z.of_nat (List.length ?t)] =>
             let v := eval vm_compute in (Z.abs d * Z.of_nat (List.length t)) in
             change (Z.abs d * Z.of_nat (List.length t)) with v
         end.

Ltac no_wrap :=
  table_size; unfold maxEntries in *;
  repeat match goal with
         | |- context [countIn ?t ?l] =>
             lazymatch goal with
             | _ : 0 <= countIn t l <= _ |- _ => fail
             | _ => pose proof (countIn_range t l)
             end
         end;
  lia.

Section ClosedForms.
Variable ToLower : string -> string.

(** X7. Rolling axis: 5, plus 2 per tech-stack entry in the bleeding-edge
    table, plus 1 for senior, minus 2 per keyword in the stability table,
    clamped to [0,10] (lists of at most 2^32 entries). *)
Theorem rolling_closed_form (signals : Signals) :
  Z.of_nat (List.length (TechStack signals)) <= maxEntries ->
  Z.of_nat (List.length (Keywords signals)) <= maxEntries ->
  calculateRollingPreference signals
  = clamp (5 + 2 * countIn bleedingTech (TechStack signals)
           + seniorBonus signals
           - 2 * countIn stableKeywords (Keywords signals)) 0 10.
Proof.
  intros HT HK. unfold calculateRollingPreference, seniorBonus. cbv zeta.
  rewrite (scan_loop_exact String.eqb 2 bleedingTech (TechStack signals) 5)
    by no_wrap.
  rewrite (matchPairs_countIn bleedingTech) by reflexivity.
  destruct (String.eqb (ExperienceLevel_ signals) ExpSenior).
  - rewrite add_small by no_wrap.
    rewrite (scan_loop_exact String.eqb) by no_wrap.
    rewrite (matchPairs_countIn stableKeywords) by reflexivity.
    f_equal. lia.
  - rewrite (scan_loop_exact String.eqb) by no_wrap.
    rewrite (matchPairs_countIn stableKeywords) by reflexivity.
    f_equal. lia.
Qed.

Lemma diyKeywordScore_exact keywords :
  Z.of_nat (List.length keywords) <= maxEntries ->
  diyKeywordScore keywords
  = 5 + 3 * countIn diyKeywords keywords - 2 * countIn easyKeywords keywords.
Proof.
  intros HK. unfold diyKeywordScore.
  rewrite (additive_loop_exact _
             (fun kw => 3 * hits (String.eqb kw) diyKeywords
                        + -2 * hits (String.eqb kw) easyKeywords)
             167).
  - rewrite <- (matchPairs_countIn diyKeywords) by reflexivity.
    rewrite <- (matchPairs_countIn easyKeywords) by reflexivity.
    unfold matchPairs.
    induction keywords as [|kw keywords IH]; cbn [fold_right]; [reflexivity|].
    cbn [List.length] in HK. lia.
  - lia.
  - intros kw.
    pose proof (hits_range (String.eqb kw) diyKeywords) as H1.
    pose proof (hits_range (String.eqb kw) easyKeywords) as H2.
    change (Z.of_nat (List.length diyKeywords)) with 53 in H1.
    change (Z.of_nat (List.length easyKeywords)) with 4 in H2. lia.
  - intros acc kw Hacc. cbv zeta.
    pose proof (hits_range (String.eqb kw) diyKeywords) as H1.
    change (Z.of_nat (List.length diyKeywords)) with 53 in H1.
    rewrite (scan_exact _ 3 diyKeywords) by (table_size; lia).
    rewrite (scan_exact _ (-2) easyKeywords) by (table_size; lia). lia.
  - unfold maxEntries in HK. lia.
Qed.

(** X8. Diy axis: 5, plus 3 per keyword in the customization table, minus 2
    per keyword in the simplicity table, plus 2 when at least two tech-stack
    entries are scripting languages, clamped to [0,10]. *)
Theorem diy_closed_form (signals : Signals) :
  Z.of_nat (List.length (TechStack signals)) <= maxEntries ->
  Z.of_nat (List.length (Keywords signals)) <= maxEntries ->
  calculateDIYPreference signals
  = clamp (5 + 3 * countIn diyKeywords (Keywords signals)
           - 2 * countIn easyKeywords (Keywords signals)
           + scriptingBonus (TechStack signals)) 0 10.
Proof.
  intros HT HK. unfold calculateDIYPreference, scriptingBonus. cbv zeta.
  rewrite scriptCount_occurrences
    by (unfold maxEntries, max_int in *; lia).
  rewrite diyKeywordScore_exact by exact HK.
  destruct (scriptingOccurrences (TechStack signals) >=? 2).
  - rewrite add_small by no_wrap. reflexivity.
  - f_equal. lia.
Qed.

(** X9. Performance axis: 3, plus 2 per keyword in the performance table, plus
    1 per tech-stack entry in the performance-technology table, clamped to
    [0,10]. *)
Theorem performance_closed_form (signals : Signals) :
  Z.of_nat (List.length (TechStack signals)) <= maxEntries ->
  Z.of_nat (List.length (Keywords signals)) <= maxEntries ->
  calculatePerformanceNeed signals
  = clamp (3 + 2 * countIn perfKeywords (Keywords signals)
           + countIn perfTech (TechStack signals)) 0 10.
Proof.
  intros HT HK. unfold calculatePerformanceNeed. cbv zeta.
  rewrite (scan_loop_exact String.eqb 2 perfKeywords (Keywords signals) 3)
    by no_wrap.
  rewrite (matchPairs_countIn perfKeywords) by reflexivity.
  rewrite (scan_loop_exact String.eqb) by no_wrap.
  rewrite (matchPairs_countIn perfTech) by reflexivity.
  f_equal. lia.
Qed.

Ltac no_wrap_pairs :=
  table_size; unfold maxEntries, substringPairs in *;
  repeat match goal with
         | |- context [matchPairs ?c ?t ?l] =>
             lazymatch goal with
             | _ : 0 <= matchPairs c t l <= _ |- _ => fail
             | _ => let H := fresh "R" in
                    pose proof (matchPairs_range c t l) as H;
                    let n := eval vm_compute in (Z.of_nat (List.length t)) in
                    change (Z.of_nat (List.length t)) with n in H
             end
         end;
  lia.

(** X10. DevFocus axis: 5, plus 2 per pair of a keyword and a critical pattern
    contained in its lower-cased form, plus 1 per such pair of a tech-stack
    entry and a developer-tooling pattern, plus 1 per such pair of a keyword
    and a dev-process pattern, clamped to [0,10].  An entry that contains
    several patterns of a table counts once for each. *)
Theorem devFocus_closed_form (signals : Signals) :
  Z.of_nat (List.length (TechStack signals)) <= maxEntries ->
  Z.of_nat (List.length (Keywords signals)) <= maxEntries ->
  calculateDevFocus ToLower signals
  = clamp (5 + 2 * substringPairs ToLower criticalKeywords (Keywords signals)
           + substringPairs ToLower devTech (TechStack signals)
           + substringPairs ToLower devKeywords (Keywords signals)) 0 10.
Proof.
  intros HT HK. unfold calculateDevFocus. cbv zeta.
  rewrite (scan_loop_exact
             (fun kw critical => strings.Contains (ToLower kw) critical)
             2 criticalKeywords (Keywords signals) 5) by no_wrap_pairs.
  fold (substringPairs ToLower criticalKeywords (Keywords signals)).
  assert (RC := matchPairs_range
                  (fun kw critical => strings.Contains (ToLower kw) critical)
                  criticalKeywords (Keywords signals)).
  fold (substringPairs ToLower criticalKeywords (Keywords signals)) in RC.
  change (Z.of_nat (List.length criticalKeywords)) with 6 in RC.
  set (c := substringPairs ToLower criticalKeywords (Keywords signals)) in *.
  rewrite (scan_loop_exact
             (fun tech dev => String.eqb (ToLower tech) dev
                              || strings.Contains (ToLower tech) dev)
             1 devTech (TechStack signals))
    by (table_size; unfold maxEntries in *; lia).
  rewrite (matchPairs_ext _
             (fun tech dev => strings.Contains (ToLower tech) dev))
    by (intros; apply eqb_or_Contains).
  fold (substringPairs ToLower devTech (TechStack signals)).
  assert (RT := matchPairs_range
                  (fun tech dev => strings.Contains (ToLower tech) dev)
                  devTech (TechStack signals)).
  fold (substringPairs ToLower devTech (TechStack signals)) in RT.
  change (Z.of_nat (List.length devTech)) with 39 in RT.
  set (t := substringPairs ToLower devTech (TechStack signals)) in *.
  rewrite (scan_loop_exact
             (fun kw dev => String.eqb (ToLower kw) dev
                            || strings.Contains (ToLower kw) dev)
             1 devKeywords (Keywords signals))
    by (table_size; unfold maxEntries in *; lia).
  rewrite (matchPairs_ext _
             (fun kw dev => strings.Contains (ToLower kw) dev))
    by (intros; apply eqb_or_Contains).
  fold (substringPairs ToLower devKeywords (Keywords signals)).
  f_equal. lia.
Qed.

(** X11. The performance and devFocus axes only ever receive positive
    contributions: they never fall below their baselines 3 and 5. *)
Theorem performance_devFocus_at_least_baseline (signals : Signals) :
  Z.of_nat (List.length (TechStack signals)) <= maxEntries ->
  Z.of_nat (List.length (Keywords signals)) <= maxEntries ->
  3 <= PerformanceScore (calculateDimensions ToLower signals) /\
  5 <= DevScore (calculateDimensions ToLower signals).
Proof.
  intros HT HK. cbn [calculateDimensions PerformanceScore DevScore].
  rewrite performance_closed_form, devFocus_closed_form by assumption.
  pose proof (countIn_range perfKeywords (Keywords signals)).
  pose proof (countIn_range perfTech (TechStack signals)).
  pose proof (matchPairs_range
                (fun kw p => strings.Contains (ToLower kw) p)
                criticalKeywords (Keywords signals)) as R1.
  pose proof (matchPairs_range
                (fun kw p => strings.Contains (ToLower kw) p)
                devTech (TechStack signals)) as R2.
  pose proof (matchPairs_range
                (fun kw p => strings.Contains (ToLower kw) p)
                devKeywords (Keywords signals)) as R3.
  unfold substringPairs.
  destruct R1 as [R1 _], R2 as [R2 _], R3 as [R3 _].
  unfold clamp.
  split.
  - destruct (Z.ltb_spec (3 + 2 * countIn perfKeywords (Keywords signals)
                          + countIn perfTech (TechStack signals)) 0); [lia|].
    destruct (Z.gtb_spec (3 + 2 * countIn perfKeywords (Keywords signals)
                          + countIn perfTech (TechStack signals)) 10); lia.
  - match goal with |- 5 <= (if ?v <? 0 then _ else _) =>
      destruct (Z.ltb_spec v 0); [lia|]; destruct (Z.gtb_spec v 10); lia
    end.
Qed.

End ClosedForms.

Lemma rolling_closed_form_witness :
  Z.of_nat (List.length (TechStack performanceFan)) <= maxEntries /\
  Z.of_nat (List.length (Keywords performanceFan)) <= maxEntries /\
  calculateRollingPreference performanceFan = 10.
Proof.
  assert (HT : Z.of_nat (List.length (TechStack performanceFan)) <= maxEntries)
    by (vm_compute; discriminate).
  assert (HK : Z.of_nat (List.length (Keywords performanceFan)) <= maxEntries)
    by (vm_compute; discriminate).
  split; [exact HT|]. split; [exact HK|].
  rewrite (rolling_closed_form performanceFan HT HK). reflexivity.
Defined.

Lemma diy_closed_form_witness :
  Z.of_nat (List.length (TechStack performanceFan)) <= maxEntries /\
  Z.of_nat (List.length (Keywords performanceFan)) <= maxEntries /\
  calculateDIYPreference performanceFan = 6.
Proof.
  assert (HT : Z.of_nat (List.length (TechStack performanceFan)) <= maxEntries)
    by (vm_compute; discriminate).
  assert (HK : Z.of_nat (List.length (Keywords performanceFan)) <= maxEntries)
    by (vm_compute; discriminate).
  split; [exact HT|]. split; [exact HK|].
  rewrite (diy_closed_form performanceFan HT HK). reflexivity.
Defined.

Lemma performance_closed_form_witness :
  Z.of_nat (List.length (TechStack performanceFan)) <= maxEntries /\
  Z.of_nat (List.length (Keywords performanceFan)) <= maxEntries /\
  calculatePerformanceNeed performanceFan = 10.
Proof.
  assert (HT : Z.of_nat (List.length (TechStack performanceFan)) <= maxEntries)
    by (vm_compute; discriminate).
  assert (HK : Z.of_nat (List.length (Keywords performanceFan)) <= maxEntries)
    by (vm_compute; discriminate).
  split; [exact HT|]. split; [exact HK|].
  rewrite (performance_closed_form performanceFan HT HK). reflexivity.
Defined.

Lemma devFocus_closed_form_witness :
  Z.of_nat (List.length (TechStack performanceFan)) <= maxEntries /\
  Z.of_nat (List.length (Keywords performanceFan)) <= maxEntries /\
  calculateDevFocus strings.asciiToLower performanceFan = 9.
Proof.
  assert (HT : Z.of_nat (List.length (TechStack performanceFan)) <= maxEntries)
    by (vm_compute; discriminate).
  assert (HK : Z.of_nat (List.length (Keywords performanceFan)) <= maxEntries)
    by (vm_compute; discriminate).
  split; [exact HT|]. split; [exact HK|].
  rewrite (devFocus_closed_form strings.asciiToLower performanceFan HT HK). reflexivity.
Defined.

Lemma performance_devFocus_baseline_witness :
  Z.of_nat (List.length (TechStack kernelHacker)) <= maxEntries /\
  Z.of_nat (List.length (Keywords kernelHacker)) <= maxEntries /\
  3 <= PerformanceScore (calculateDimensions strings.asciiToLower kernelHacker).
Proof.
  assert (HT : Z.of_nat (List.length (TechStack kernelHacker)) <= maxEntries)
    by (vm_compute; discriminate).
  assert (HK : Z.of_nat (List.length (Keywords kernelHacker)) <= maxEntries)
    by (vm_compute; discriminate).
  split; [exact HT|]. split; [exact HK|].
  exact (proj1 (performance_devFocus_at_least_baseline
                  strings.asciiToLower kernelHacker HT HK)).
Defined.

End extractorFacts.

(** * Properties of the explainer *)

Module explainFacts.
Import Int64 profile score scoreFacts gostd explain.

(** ** Vocabulary *)

(** The opening words of [buildIntro] for a score, by the thresholds of
    the categorizer. *)
Definition introWords (score : Z) : string :=
  if score >=? 75 then "Excelente coincidencia (score: "
  else if score >=? 50 then "Coincidencia moderada (score: "
  else "Coincidencia baja (score: ".


Definition stranger : Signals := mkSignals [] SentimentNeu "mid|senior" [] [].


(** ** Slices *)

Lemma len_cons_pos {A : Type} (x : A) (l : list A) : (len (x :: l) >? 0) = true.
Proof.
  unfold len. cbn [List.length]. rewrite Nat2Z.inj_succ.
  destruct (Z.gtb_spec (Z.succ (Z.of_nat (List.length l))) 0); [reflexivity|lia].
Qed.

Lemma len_pos_iff {A : Type} (l : list A) : (len l >? 0) = negb (len l =? 0).
Proof.
  destruct l; [reflexivity|]. rewrite len_cons_pos.
  unfold len. cbn [List.length]. rewrite Nat2Z.inj_succ.
  destruct (Z.eqb_spec (Z.succ (Z.of_nat (List.length l))) 0); [lia|reflexivity].
Qed.



Lemma append_dot_nonempty s : (s ++ ".")%string <> "".
Proof. destruct s; discriminate. Qed.

(** ** buildIntro *)

(** X13. On every result the engine produces, the introduction is one of the
    three category sentences, chosen by the score thresholds 75 and 50; the
    bare default sentence is never used. *)
Theorem buildIntro_of_Score (ToLower : string -> string)
        (e : Engine) (signals : Signals) :
  let result := Result_ (Score ToLower e signals) in
  buildIntro result
  = (introWords (profile.Score result)
     ++ itoa (profile.Score result) ++ "/100).")%string.
Proof.
  intros result.
  assert (C : Category result = determineCategory e (profile.Score result))
    by reflexivity.
  unfold buildIntro, introWords. rewrite C. unfold determineCategory.
  destruct (profile.Score result >=? 75); [reflexivity|].
  destruct (profile.Score result >=? 50); reflexivity.
Qed.

(** ** buildReasons *)

(** X14. The reasons sentence is empty exactly when the tech stack is empty,
    the experience level is the empty string and there are no topics. *)
Theorem buildReasons_empty_iff (signals : Signals) :
  buildReasons signals = ""
  <-> TechStack signals = [] /\ ExperienceLevel_ signals = ""
      /\ Topics signals = [].
Proof.
  unfold buildReasons. destruct signals as [topics sent level kws techs].
  cbn [TechStack ExperienceLevel_ Topics]. cbv zeta.
  destruct techs as [|t techs], (String.eqb_spec level "") as [->|N],
    topics as [|p topics];
    rewrite ?len_cons_pos; cbn [negb];
    try (change (len (@nil string) >? 0) with false; cbv iota);
    unfold append; cbn [List.app];
    rewrite ?len_cons_pos;
    (split;
     [ intros H;
       try (exfalso; revert H;
            match goal with
            | |- (if ?c then _ else _) = _ -> _ =>
                let v := eval hnf in c in
                change c with v; cbv iota; apply append_dot_nonempty
            end)
     | intros (H1 & H2 & H3); try discriminate; try contradiction ]);
    try (split; [reflexivity|split; reflexivity]); try reflexivity.
Qed.


(** X16. An experience level outside junior, mid and senior (for instance an
    uncleaned "mid|senior") still produces a level clause, with a blank
    label. *)
Theorem buildReasons_unknown_level (signals : Signals) :
  TechStack signals = [] -> Topics signals = [] ->
  ExperienceLevel_ signals <> "" ->
  ExperienceLevel_ signals <> ExpJunior ->
  ExperienceLevel_ signals <> ExpMid ->
  ExperienceLevel_ signals <> ExpSenior ->
  buildReasons signals = "nivel .".
Proof.
  intros HT HP H0 HJ HM HS. unfold buildReasons. rewrite HT, HP.
  destruct (String.eqb_spec (ExperienceLevel_ signals) "") ; [contradiction|].
  destruct (String.eqb_spec (ExperienceLevel_ signals) ExpJunior);
    [contradiction|].
  destruct (String.eqb_spec (ExperienceLevel_ signals) ExpMid);
    [contradiction|].
  destruct (String.eqb_spec (ExperienceLevel_ signals) ExpSenior);
    [contradiction|].
  reflexivity.
Qed.

Lemma buildReasons_unknown_level_witness :
  ExperienceLevel_ stranger <> ExpSenior /\
  buildReasons stranger = "nivel .".
Proof.
  split; [discriminate|].
  apply buildReasons_unknown_level;
    try reflexivity; discriminate.
Defined.

(** ** buildConfidence *)



End explainFacts.

(** * Properties of the analyzer *)

Module analyzeFacts.
Import Int64 profile score scoreFacts engineFacts gostd profiledata analyze.

(** ** Vocabulary *)

(** What one word of the bio contributes to [extractHashtagTechs]. *)
Definition hashtagOf (ToLower : string -> string) (word : string)
  : list string :=
  match lookup techHashtags (ToLower word) with
  | Some tech => [tech]
  | None => []
  end.

(** One iteration of the loop of [addBioHashtags]. *)
Definition addTech (ToLower : string -> string)
           (signals : Signals) (tech : string) : Signals :=
  if negb (contains ToLower (TechStack signals) tech) then
    {| Topics := Topics signals;
       Sentiment_ := Sentiment_ signals;
       ExperienceLevel_ := ExperienceLevel_ signals;
       Keywords := Keywords signals;
       TechStack := append (TechStack signals) tech |}
  else signals.

(** No entry of [added] is already present, up to case, in [base] or
    earlier in [added]. *)
Definition fresh (ToLower : string -> string)
           (base added : list string) : Prop :=
  forall l1 x l2, added = (l1 ++ x :: l2)%list ->
                  contains ToLower (base ++ l1)%list x = false.

Definition withReadme (data : RawData) (email : string)
           (readme : option string) : RawData :=
  {| Bio := Bio data; Repositories := Repositories data;
     Website := Website data; Location := Location data;
     Email := email; ReadmeText := readme |}.

Definition devopsBio : string := "SRE  #K8s #kubernetes and #Rust fan".

Definition pythonist : Signals :=
  mkSignals [] SentimentNeu ExpMid [] ["Python"; "kubernetes"].

Example asciiFields_devopsBio :
  asciiFields devopsBio = ["SRE"; "#K8s"; "#kubernetes"; "and"; "#Rust"; "fan"].
Proof. reflexivity. Qed.

Section WithStrings.
Variable ToLower : string -> string.
Variable Fields : string -> list string.
Variable TrimSpace : string -> string.
Variable Unmarshal : string -> option rawSignals.

(** ** extractHashtagTechs *)

Lemma extract_loop words :
  forall techs,
    fold_left (fun techs word =>
                 match lookup techHashtags (ToLower word) with
                 | Some tech => append techs tech
                 | None => techs
                 end) words techs
    = (techs ++ flat_map (hashtagOf ToLower) words)%list.
Proof.
  induction words as [|w words IH]; intros techs; cbn [fold_left flat_map].
  - now rewrite app_nil_r.
  - rewrite IH. unfold hashtagOf at 2.
    destruct (lookup techHashtags (ToLower w)); [|reflexivity].
    unfold append. now rewrite <- app_assoc.
Qed.

Lemma lookup_In m key v : lookup m key = Some v -> In v (map snd m).
Proof.
  induction m as [|[k v'] m IH]; cbn; [discriminate|].
  destruct (String.eqb k key); [intros [= ->]; now left|auto].
Qed.

(** X18. [extractHashtagTechs] returns, in word order, one technology for each
    word of the bio whose lower-cased form is a key of the hashtag table:
    every returned name is a value of the table and there are never more
    names than words. *)
Theorem extractHashtagTechs_spec (bio : string) :
  extractHashtagTechs ToLower Fields bio
  = flat_map (hashtagOf ToLower) (Fields bio) /\
  (forall tech, In tech (extractHashtagTechs ToLower Fields bio) ->
                In tech (map snd techHashtags)) /\
  (List.length (extractHashtagTechs ToLower Fields bio)
   <= List.length (Fields bio))%nat.
Proof.
  assert (E : extractHashtagTechs ToLower Fields bio
              = flat_map (hashtagOf ToLower) (Fields bio))
    by (unfold extractHashtagTechs; now rewrite extract_loop).
  split; [exact E|]. rewrite E. split.
  - intros tech Hin. apply in_flat_map in Hin as (w & _ & Hw).
    unfold hashtagOf in Hw.
    destruct (lookup techHashtags (ToLower w)) eqn:L; [|contradiction].
    destruct Hw as [<-|[]]. now apply (lookup_In _ (ToLower w)).
  - clear E. induction (Fields bio) as [|w ws IH]; cbn [flat_map List.length]; [lia|].
    rewrite length_app.
    assert (List.length (hashtagOf ToLower w) <= 1)%nat
      by (unfold hashtagOf; destruct (lookup techHashtags (ToLower w));
          cbn; lia).
    lia.
Qed.

(** ** addBioHashtags *)

Lemma contains_app l l' item :
  contains ToLower (l ++ l')%list item
  = contains ToLower l item || contains ToLower l' item.
Proof. unfold contains. cbv zeta. apply existsb_app. Qed.

Lemma contains_self item : contains ToLower [item] item = true.
Proof. unfold contains. cbn. now rewrite String.eqb_refl. Qed.

Lemma addTech_loop techs :
  forall signals,
    let result := fold_left (addTech ToLower) techs signals in
    (Topics result = Topics signals /\
     Sentiment_ result = Sentiment_ signals /\
     ExperienceLevel_ result = ExperienceLevel_ signals /\
     Keywords result = Keywords signals) /\
    exists added,
      TechStack result = (TechStack signals ++ added)%list /\
      incl added techs /\
      fresh ToLower (TechStack signals) added /\
      forall tech, In tech techs ->
                   contains ToLower (TechStack result) tech = true.
Proof.
  induction techs as [|t techs IH]; intros signals; cbv zeta; cbn [fold_left].
  - split; [auto|]. exists []. rewrite app_nil_r.
    split; [reflexivity|]. split; [apply incl_refl|].
    split; [|intros tech []].
    intros l1 x l2 E. now destruct l1.
  - remember (addTech ToLower signals t) as next eqn:En.
    destruct (IH next)
      as ((F1 & F2 & F3 & F4) & added & ET & Hincl & Hfresh & Hcov).
    cbv zeta in *. unfold addTech in En.
    destruct (contains ToLower (TechStack signals) t) eqn:C;
      cbn [negb] in En; subst next.
    + split; [auto|]. exists added.
      split; [exact ET|]. split; [intros x Hx; right; now apply Hincl|].
      split; [exact Hfresh|].
      intros tech [<-|Hin]; [|now apply Hcov].
      rewrite ET, contains_app, C. reflexivity.
    + cbn [Topics Sentiment_ ExperienceLevel_ Keywords TechStack] in *.
      split; [auto|]. exists (t :: added). unfold append in *.
      rewrite <- app_assoc in ET. cbn [List.app] in ET.
      split; [exact ET|].
      split; [intros x [<-|Hx]; [now left|right; now apply Hincl]|].
      split.
      * intros l1 x l2 E. destruct l1 as [|y l1]; cbn [List.app] in E.
        -- injection E as <- _. now rewrite app_nil_r.
        -- injection E as <- E.
           specialize (Hfresh l1 x l2 E).
           now rewrite <- app_assoc in Hfresh.
      * intros tech [<-|Hin]; [|now apply Hcov].
        rewrite ET, contains_app.
        change (t :: added) with ([t] ++ added)%list.
        now rewrite (contains_app [t]), contains_self, orb_true_r.
Qed.

(** X19. The post-processing of [Analyze] only appends to the tech stack: the
    analyzer's entries stay in place, the topics, sentiment, experience
    level and keywords are untouched, and each appended entry is a hashtag
    technology of the bio that was not yet present, up to case, when it was
    appended. *)
Theorem addBioHashtags_appends_fresh (signals : Signals) (bio : string) :
  let result := addBioHashtags ToLower Fields signals bio in
  (Topics result = Topics signals /\
   Sentiment_ result = Sentiment_ signals /\
   ExperienceLevel_ result = ExperienceLevel_ signals /\
   Keywords result = Keywords signals) /\
  exists added,
    TechStack result = (TechStack signals ++ added)%list /\
    incl added (extractHashtagTechs ToLower Fields bio) /\
    fresh ToLower (TechStack signals) added.
Proof.
  unfold addBioHashtags. destruct (String.eqb bio ""); cbn [negb].
  - split; [auto|]. exists []. rewrite app_nil_r.
    split; [reflexivity|]. split; [intros x []|].
    intros l1 x l2 E. now destruct l1.
  - destruct (addTech_loop (extractHashtagTechs ToLower Fields bio) signals)
      as (F & added & ET & Hincl & Hfresh & _).
    split; [exact F|]. exists added. auto.
Qed.

(** X20. After the post-processing every hashtag technology of a non-empty bio
    is present in the tech stack, up to case. *)
Theorem addBioHashtags_covers_bio (signals : Signals) (bio tech : string) :
  bio <> "" ->
  In tech (extractHashtagTechs ToLower Fields bio) ->
  contains ToLower
    (TechStack (addBioHashtags ToLower Fields signals bio)) tech = true.
Proof.
  intros Hbio Hin. unfold addBioHashtags.
  destruct (String.eqb_spec bio ""); [contradiction|]. cbn [negb].
  destruct (addTech_loop (extractHashtagTechs ToLower Fields bio) signals)
    as (_ & _ & _ & _ & _ & Hcov).
  now apply Hcov.
Qed.

(** ** buildPrompt *)

Lemma substring_0_short n : forall s,
  (String.length s <= n)%nat -> substring 0 n s = s.
Proof.
  induction n as [|n IH]; intros [|c s] H; cbn in *;
    try reflexivity; try lia.
  f_equal. apply IH. lia.
Qed.

Lemma substring_0_length n : forall s,
  (n <= String.length s)%nat -> String.length (substring 0 n s) = n.
Proof.
  induction n as [|n IH]; intros [|c s] H; cbn in *;
    try reflexivity; try lia.
  f_equal. apply IH. lia.
Qed.

(** The README part of the prompt, from the parts collected so far. *)
Lemma readme_part_truncated (parts : list string) (text : string) :
  (if negb (String.eqb text "") then
     append parts
       ("README (primeras líneas): "
        ++ (if strlen text >? 2000 then substring 0 2000 text else text))
   else parts)
  = (if negb (String.eqb (substring 0 2000 text) "") then
       append parts
         ("README (primeras líneas): "
          ++ (if strlen (substring 0 2000 text) >? 2000
              then substring 0 2000 (substring 0 2000 text)
              else substring 0 2000 text))
     else parts).
Proof.
  unfold strlen.
  destruct (Z.gtb_spec (Z.of_nat (String.length text)) 2000) as [Hlong|Hshort].
  - assert (L : String.length (substring 0 2000 text) = 2000%nat)
      by (apply substring_0_length; lia).
    rewrite L.
    destruct text as [|c text]; [cbn in Hlong; lia|].
    assert (N : substring 0 2000 (String c text) <> "").
    { intros E. rewrite E in L. discriminate L. }
    destruct (String.eqb_spec (substring 0 2000 (String c text)) "");
      [contradiction|].
    reflexivity.
  - rewrite (substring_0_short 2000 text) by lia.
    destruct (Z.gtb_spec (Z.of_nat (String.length text)) 2000); [lia|].
    reflexivity.
Qed.

(** X21. The prompt carries at most the first 2000 bytes of the README and
    nothing of the e-mail address: cutting the README to 2000 bytes and
    changing the e-mail leave the prompt unchanged. *)
Theorem buildPrompt_reads_2000_readme_bytes
        (data : RawData) (email : string) (text : string) :
  buildPrompt (withReadme data (Email data) (Some text))
  = buildPrompt (withReadme data email (Some (substring 0 2000 text))).
Proof.
  unfold buildPrompt, withReadme.
  cbn [Bio Repositories Website Location Email ReadmeText]. cbv zeta.
  now rewrite readme_part_truncated.
Qed.

(** ** parseSignals *)



End WithStrings.


Lemma addBioHashtags_covers_bio_witness :
  devopsBio <> "" /\
  In "kubernetes" (extractHashtagTechs strings.asciiToLower asciiFields devopsBio) /\
  contains strings.asciiToLower
    (TechStack (addBioHashtags strings.asciiToLower asciiFields pythonist
                  devopsBio)) "kubernetes" = true.
Proof.
  assert (H1 : devopsBio <> "") by discriminate.
  assert (H2 : In "kubernetes"
                  (extractHashtagTechs strings.asciiToLower asciiFields devopsBio))
    by (now left).
  split; [exact H1|]. split; [exact H2|].
  exact (addBioHashtags_covers_bio strings.asciiToLower asciiFields
           pythonist devopsBio "kubernetes" H1 H2).
Defined.

Example addBioHashtags_devopsBio :
  TechStack (addBioHashtags strings.asciiToLower asciiFields pythonist devopsBio)
  = ["Python"; "kubernetes"; "rust"].
Proof. reflexivity. Qed.

End analyzeFacts.

(** * Entries that match no table *)

Module relevanceFacts.
Import Int64 Int64Facts profile score scoreFacts extractorFacts.

(** ** Vocabulary *)

(** The keyword hits some table that a keyword loop scans. *)
Definition relevantKeyword (ToLower : string -> string) (kw : string) : bool :=
  member stableKeywords kw || member diyKeywords kw || member easyKeywords kw
  || member perfKeywords kw
  || existsb (strings.Contains (ToLower kw)) criticalKeywords
  || existsb (strings.Contains (ToLower kw)) devKeywords.

(** The tech-stack entry hits some table that a tech-stack loop scans. *)
Definition relevantTech (ToLower : string -> string) (tech : string) : bool :=
  member bleedingTech tech || member scriptingLangs tech
  || member perfTech tech
  || existsb (strings.Contains (ToLower tech)) devTech.

Definition withoutNoise (ToLower : string -> string) (signals : Signals)
  : Signals :=
  {| Topics := Topics signals;
     Sentiment_ := Sentiment_ signals;
     ExperienceLevel_ := ExperienceLevel_ signals;
     Keywords := filter (relevantKeyword ToLower) (Keywords signals);
     TechStack := filter (relevantTech ToLower) (TechStack signals) |}.

(** ** A scan without a hit changes nothing *)

Lemma hits_existsb cond table :
  existsb cond table = false -> hits cond table = 0.
Proof.
  unfold hits. induction table as [|p table IH]; cbn; [reflexivity|].
  destruct (cond p); [discriminate|]. exact IH.
Qed.

Lemma scan_miss cond d table score :
  existsb cond table = false -> scanTable cond d table score = score.
Proof.
  intros H. rewrite scanTable_bump, (hits_existsb _ _ H). reflexivity.
Qed.

Section FilteredLoop.
Variables (step : Z -> string -> Z) (keep : string -> bool).
Hypothesis step_miss : forall score x, keep x = false -> step score x = score.

Lemma fold_left_filter l :
  forall score, fold_left step l score = fold_left step (filter keep l) score.
Proof.
  induction l as [|x l IH]; intros score; cbn [fold_left filter]; [reflexivity|].
  destruct (keep x) eqn:K; cbn [fold_left].
  - apply IH.
  - rewrite step_miss by exact K. apply IH.
Qed.

End FilteredLoop.

Lemma existsb_eqb_or_Contains s table :
  existsb (fun p => String.eqb s p || strings.Contains s p) table
  = existsb (strings.Contains s) table.
Proof.
  induction table as [|p table IH]; cbn [existsb]; [reflexivity|].
  now rewrite IH, eqb_or_Contains.
Qed.

Ltac miss :=
  intros;
  repeat match goal with
         | H : _ || _ = false |- _ => apply orb_false_iff in H as [? ?]
         end;
  unfold member in *;
  repeat rewrite scan_miss;
  try reflexivity; try assumption;
  try (rewrite existsb_eqb_or_Contains; assumption).

(** X12. Keywords and tech-stack entries that match no table of the extractor
    can be dropped, wherever they stand, without changing any of the four
    axes. *)
Theorem unmatched_entries_are_ignored (ToLower : string -> string)
        (signals : Signals) :
  calculateDimensions ToLower signals
  = calculateDimensions ToLower (withoutNoise ToLower signals).
Proof.
  unfold calculateDimensions, withoutNoise. f_equal.
  - unfold calculateRollingPreference. cbn [TechStack Keywords ExperienceLevel_].
    rewrite (fold_left_filter
               (fun score tech => scanTable (String.eqb tech) 2 bleedingTech score)
               (relevantTech ToLower)) by (unfold relevantTech; miss).
    f_equal.
    now rewrite (fold_left_filter
                   (fun score kw => scanTable (String.eqb kw) (-2) stableKeywords score)
                   (relevantKeyword ToLower)) by (unfold relevantKeyword; miss).
  - unfold calculateDIYPreference, diyKeywordScore, scriptCount.
    cbn [TechStack Keywords].
    rewrite (fold_left_filter
               (fun score kw =>
                  let score := scanTable (String.eqb kw) 3 diyKeywords score in
                  scanTable (String.eqb kw) (-2) easyKeywords score)
               (relevantKeyword ToLower))
      by (unfold relevantKeyword; cbv zeta; miss).
    now rewrite (fold_left_filter
                   (fun scriptCount tech =>
                      scanTable (String.eqb tech) 1 scriptingLangs scriptCount)
                   (relevantTech ToLower)) by (unfold relevantTech; miss).
  - unfold calculatePerformanceNeed. cbn [TechStack Keywords].
    rewrite (fold_left_filter
               (fun score kw => scanTable (String.eqb kw) 2 perfKeywords score)
               (relevantKeyword ToLower)) by (unfold relevantKeyword; miss).
    now rewrite (fold_left_filter
                   (fun score tech => scanTable (String.eqb tech) 1 perfTech score)
                   (relevantTech ToLower)) by (unfold relevantTech; miss).
  - unfold calculateDevFocus. cbn [TechStack Keywords].
    rewrite (fold_left_filter
               (fun score kw =>
                  scanTable (fun critical => strings.Contains (ToLower kw) critical)
                            2 criticalKeywords score)
               (relevantKeyword ToLower)) by (unfold relevantKeyword; miss).
    rewrite (fold_left_filter
               (fun score tech =>
                  scanTable (fun dev => String.eqb (ToLower tech) dev
                                        || strings.Contains (ToLower tech) dev)
                            1 devTech score)
               (relevantTech ToLower)) by (unfold relevantTech; miss).
    now rewrite (fold_left_filter
                   (fun score kw =>
                      scanTable (fun dev => String.eqb (ToLower kw) dev
                                            || strings.Contains (ToLower kw) dev)
                                1 devKeywords score)
                   (relevantKeyword ToLower)) by (unfold relevantKeyword; miss).
Qed.

End relevanceFacts.

(** * Properties of the pipeline *)

Module pipelineFacts.
Import profile score scoreFacts gostd profiledata httpapi.

Section Pipeline.
Variable Time : Type.
Variable ToLower : string -> string.
Variable Collect : string -> RawData + string.
Variable Analyze : RawData -> Signals + string.
Variable engine : Engine.
Variable now : Time.

(** X23. [runPipeline] fails exactly when the collector or the analyzer fails,
    with the error wrapped under its stage.  Otherwise the profile keeps
    the collected data without the README, carries a score in [0,100] with
    the category of that score and a confidence in [0,1.08], stores the
    explainer's text in place of the engine's explanation, and recommends
    the empty name or an item of the catalog. *)
Theorem runPipeline_outcome (username : string) :
  match runPipeline Time ToLower Collect Analyze engine now username with
  | inr message =>
      (exists err, Collect username = inr err /\
                   message = ("collection failed: " ++ err)%string) \/
      (exists rawData err,
          Collect username = inl rawData /\ Analyze rawData = inr err /\
          message = ("analysis failed: " ++ err)%string)
  | inl prof =>
      exists rawData signals,
        Collect username = inl rawData /\ Analyze rawData = inl signals /\
        Username Time prof = username /\ Source Time prof = "github" /\
        Signals_ Time prof = signals /\
        RawData_ Time prof
        = mkRawData (Bio rawData) (Repositories rawData) (Website rawData)
                    (Location rawData) (Email rawData) None /\
        0 <= profile.Score (profiledata.Result_ Time prof) <= 100 /\
        Category (profiledata.Result_ Time prof)
        = determineCategory engine
            (profile.Score (profiledata.Result_ Time prof)) /\
        (0 <= Confidence (profiledata.Result_ Time prof) <= 1.08)%R /\
        Explanation (profiledata.Result_ Time prof)
        = explain.Explain (score.Result_ (Score ToLower engine signals)) signals /\
        ((DistroID (Recommendation_ Time prof) = "" /\
          DistroName (Recommendation_ Time prof) = "") \/
         exists w, In w (distros engine) /\
                   DistroID (Recommendation_ Time prof) = ID w /\
                   DistroName (Recommendation_ Time prof) = Name w)
  end.
Proof.
  unfold runPipeline.
  destruct (Collect username) as [rawData|err] eqn:EC;
    [|left; exists err; auto].
  destruct (Analyze rawData) as [signals|err] eqn:EA;
    [|right; exists rawData, err; auto].
  exists rawData, signals. cbv zeta.
  cbn [ClearLargeData Username Source Signals_ RawData_ profiledata.Result_
       Recommendation_ DistroID DistroName profile.Score Category
       Confidence Explanation].
  split; [reflexivity|]. split; [exact EA|].
  repeat (split; [reflexivity|]).
  split; [apply clamp_range; lia|].
  split; [reflexivity|].
  split; [apply findBestMatch_range|].
  split; [reflexivity|].
  cbn [Score BestDistroID BestDistroName].
  rewrite findBestMatch_distro.
  destruct (selectBest_cases engine (calculateDimensions ToLower signals) signals)
    as [E|(w & Hin & _ & _ & E)]; rewrite E; cbn [distro].
  - left. split; reflexivity.
  - right. exists w. auto.
Qed.

End Pipeline.

End pipelineFacts.
